(** * Pysis: the ISIS cube reader ([pysis/constants.py], [pysis/cubefile.py])

    A shallow embedding of the cube reader and of the tables it relies on.
    Python exceptions are values of [exn]; a computation that may raise
    returns a [result]; code that reads from the open file threads a
    [stream] through the [io] monad.  NumPy is modelled by the handful of
    primitives the reader calls ([np_fromfile], [reshape3], slice
    assignment, comparisons of scalars, the arithmetic of an array with a
    Python number). *)

From Stdlib Require Import ZArith Lia Strings.Byte SpecFloat.
From stdpp Require Import base gmap strings list.

Local Open Scope Z_scope.

(** ** Exceptions and the two monads *)

Inductive value_error :=
| ReshapeSize        (* ndarray.reshape: the sizes differ *)
| RangeStepZero      (* range() arg 3 must not be zero *)
| Broadcast          (* could not broadcast input array into shape *)
| EmptyReduction.    (* min()/max() of an empty selection *)

Inductive exn :=
| KeyError (key : string)
| Exception (msg : string)
| ValueError (why : value_error)
| OSError
| TypeError
| OverflowError
| AttributeError (attr : string)
| NameError (name : string)
| ImportError (name : string).

Inductive result (A : Type) :=
| Ok (a : A)
| Raise (e : exn).
Arguments Ok {A} a.
Arguments Raise {A} e.

#[export] Instance result_ret : MRet result := λ A a, Ok a.
#[export] Instance result_bind : MBind result :=
  λ A B f m, match m with Ok a => f a | Raise e => Raise e end.

Definition io (S A : Type) : Type := S → result (A * S).

#[export] Instance io_ret {S} : MRet (io S) := λ A a s, Ok (a, s).
#[export] Instance io_bind {S} : MBind (io S) :=
  λ A B f m s, match m s with Ok (a, s') => f a s' | Raise e => Raise e end.

Definition lift {S A} (r : result A) : io S A :=
  λ s, match r with Ok a => Ok (a, s) | Raise e => Raise e end.

(** [for x in xs: acc = body x acc] *)
Fixpoint for_each {S A B} (xs : list A) (body : A → B → io S B) (acc : B) : io S B :=
  match xs with
  | [] => mret acc
  | x :: rest => acc' ← body x acc; for_each rest body acc'
  end.

(** [d[k]] on a dict. *)
Definition getitem {V} (d : gmap string V) (k : string) : result V :=
  match d !! k with
  | Some v => Ok v
  | None => Raise (KeyError k)
  end.

(** [range(0, stop, step)]. *)
Definition py_range (stop step : nat) : result (list nat) :=
  match step with
  | O => Raise (ValueError RangeStepZero)
  | _ => Ok ((λ i, i * step)%nat <$> seq 0 ((stop + step - 1) / step)%nat)
  end.

(** ** NumPy: element types and byte order *)

Inductive np_type :=
| uint8 | int8 | uint16 | int16 | uint32 | int32 | uint64 | int64
| float32 | float64.

(** The byte-order characters ['='], ['<'], ['>']. *)
Inductive byteorder := Native | LittleEndian | BigEndian.

Record Dtype := { base_type : np_type; order : byteorder }.

Definition itemsize (t : np_type) : nat :=
  match t with
  | uint8 | int8 => 1
  | uint16 | int16 => 2
  | uint32 | int32 | float32 => 4
  | uint64 | int64 | float64 => 8
  end.

Definition is_signed_int (t : np_type) : bool :=
  match t with
  | int8 | int16 | int32 | int64 => true
  | _ => false
  end.

Definition is_float (t : np_type) : bool :=
  match t with
  | float32 | float64 => true
  | _ => false
  end.

(** [numpy.dtype(t)] for a type name: native byte order. *)
Definition np_dtype (t : np_type) : Dtype := {| base_type := t; order := Native |}.

(** [dtype.newbyteorder(o)]. *)
Definition newbyteorder (d : Dtype) (o : byteorder) : Dtype :=
  {| base_type := base_type d; order := o |}.

(** ** NumPy: bytes to elements and back

    An integer element is its value; a floating-point element is kept as
    its bit pattern, which is what the buffer holds, and is read as a
    number through [float_of_bits] where the code compares it. *)

Definition byte_val (b : byte) : Z := Z.of_N (Byte.to_N b).

Definition byte_of_Z (z : Z) : byte :=
  default x00 (Byte.of_N (Z.to_N (z mod 256))).

Fixpoint le_decode (bs : list byte) : Z :=
  match bs with
  | [] => 0
  | b :: rest => byte_val b + 256 * le_decode rest
  end.

Fixpoint le_encode (n : nat) (z : Z) : list byte :=
  match n with
  | O => []
  | S n' => byte_of_Z z :: le_encode n' (z / 256)
  end.

(** The machine the reader runs on: [true] on a big-endian host. *)
Definition big_endian_order (host_big_endian : bool) (o : byteorder) : bool :=
  match o with
  | Native => host_big_endian
  | LittleEndian => false
  | BigEndian => true
  end.

Definition to_memory_order (host_big_endian : bool) (d : Dtype) (bs : list byte) : list byte :=
  if big_endian_order host_big_endian (order d) then reverse bs else bs.

Definition decode_elem (host_big_endian : bool) (d : Dtype) (bs : list byte) : Z :=
  let u := le_decode (to_memory_order host_big_endian d bs) in
  let bits := 8 * Z.of_nat (itemsize (base_type d)) in
  if is_signed_int (base_type d) && (2 ^ (bits - 1) <=? u) then u - 2 ^ bits else u.

Definition encode_elem (host_big_endian : bool) (d : Dtype) (z : Z) : list byte :=
  let bits := 8 * Z.of_nat (itemsize (base_type d)) in
  to_memory_order host_big_endian d (le_encode (itemsize (base_type d)) (z mod 2 ^ bits)).

(** The IEEE 754 reading of a bit pattern of [width] bits, and the bit
    pattern of a number; a NaN is written as the default quiet NaN. *)
Definition bits_of_float (prec emax width : Z) (f : spec_float) : Z :=
  let mw := prec - 1 in
  let ew := width - prec in
  let sign (s : bool) := if s then 2 ^ (width - 1) else 0 in
  match f with
  | S754_zero s => sign s
  | S754_infinity s => sign s + (2 ^ ew - 1) * 2 ^ mw
  | S754_nan => (2 ^ ew - 1) * 2 ^ mw + 2 ^ (mw - 1)
  | S754_finite s m e =>
      if Zpos m <? 2 ^ mw then sign s + Zpos m
      else sign s + (e - emin prec emax + 1) * 2 ^ mw + (Zpos m - 2 ^ mw)
  end.

Definition float_of_bits (prec emax width bits : Z) : spec_float :=
  let mw := prec - 1 in
  let ew := width - prec in
  let s := Z.testbit bits (width - 1) in
  let e := (bits / 2 ^ mw) mod 2 ^ ew in
  let m := bits mod 2 ^ mw in
  if e =? 0 then
    match m with
    | Zpos p => S754_finite s p (emin prec emax)
    | _ => S754_zero s
    end
  else if e =? 2 ^ ew - 1 then
    (if m =? 0 then S754_infinity s else S754_nan)
  else
    match m + 2 ^ mw with
    | Zpos p => S754_finite s p (e + emin prec emax - 1)
    | _ => S754_nan
    end.

(** ** Scalars: Python integers and NumPy floating-point scalars *)

Inductive scalar :=
| PyInt (z : Z)
| NpFloat32 (f : spec_float)
| NpFloat64 (f : spec_float).

(** The element [z] of an array of type [t], as a scalar. *)
Definition scalar_of_elem (t : np_type) (z : Z) : scalar :=
  match t with
  | float32 => NpFloat32 (float_of_bits 24 128 32 z)
  | float64 => NpFloat64 (float_of_bits 53 1024 64 z)
  | _ => PyInt z
  end.

(** Conversion to [float64]: exact for integers of at most 53 bits and
    for single and double precision floats, to the nearest double
    otherwise. *)
Definition float64_of_scalar (x : scalar) : spec_float :=
  match x with
  | PyInt z => binary_normalize 53 1024 z 0 false
  | NpFloat32 (S754_finite s m e) => binary_normalize 53 1024 (cond_Zopp s (Zpos m)) e s
  | NpFloat32 f => f
  | NpFloat64 f => f
  end.

Definition scalar_compare (x y : scalar) : option comparison :=
  match x, y with
  | PyInt a, PyInt b => Some (a ?= b)
  | NpFloat32 f, NpFloat32 g => SFcompare f g
  | _, _ => SFcompare (float64_of_scalar x) (float64_of_scalar y)
  end.

Definition scalar_eqb (x y : scalar) : bool :=
  match scalar_compare x y with Some Eq => true | _ => false end.
Definition scalar_ltb (x y : scalar) : bool :=
  match scalar_compare x y with Some Lt => true | _ => false end.
Definition scalar_leb (x y : scalar) : bool :=
  match scalar_compare x y with Some (Lt | Eq) => true | _ => false end.

(** ** NumPy: arrays as nested lists, row-major *)

(** [k] consecutive runs of [n] items. *)
Fixpoint chunks {A} (n k : nat) (l : list A) : list (list A) :=
  match k with
  | O => []
  | S k' => take n l :: chunks n k' (drop n l)
  end.

(** A two-dimensional array: its shape and its rows. *)
Record array2 (A : Type) := {
  shape2 : nat * nat;
  rows2 : list (list A)
}.
Arguments shape2 {A} _.
Arguments rows2 {A} _.

Definition reshape2 {A} (rows cols : nat) (flat : list A) : result (array2 A) :=
  if decide (length flat = (rows * cols)%nat)
  then Ok {| shape2 := (rows, cols); rows2 := chunks cols rows flat |}
  else Raise (ValueError ReshapeSize).

(** The row-major arrangement of a flat run in [b] planes of [l] rows of
    [s] cells. *)
Definition unflatten3 {A} (shape : nat * nat * nat) (flat : list A)
  : list (list (list A)) :=
  let '(b, l, s) := shape in
  chunks s l <$> chunks (l * s) b flat.

Definition size_of (shape : nat * nat * nat) : nat :=
  let '(b, l, s) := shape in (b * l * s)%nat.

Definition reshape3 {A} (shape : nat * nat * nat) (flat : list A)
  : result (list (list (list A))) :=
  if decide (length flat = size_of shape)
  then Ok (unflatten3 shape flat)
  else Raise (ValueError ReshapeSize).

Definition flatten3 {A} (a : list (list (list A))) : list A :=
  concat (concat a).

Definition get2 {A} (a : list (list A)) (i j : nat) : option A :=
  match a !! i with
  | Some row => row !! j
  | None => None
  end.

Definition get3 {A} (a : list (list (list A))) (i j k : nat) : option A :=
  match a !! i with
  | Some plane => get2 plane j k
  | None => None
  end.

Definition map3 {A B} (f : A → B) (a : list (list (list A))) : list (list (list B)) :=
  (λ plane : list (list A), (λ row : list A, f <$> row) <$> plane) <$> a.

Record ndarray (A : Type) := {
  nd_dtype : Dtype;
  nd_shape : nat * nat * nat;
  nd_items : list (list (list A))
}.
Arguments nd_dtype {A} _.
Arguments nd_shape {A} _.
Arguments nd_items {A} _.

(** [numpy.empty(shape, dtype)]: the cells hold whatever [junk] was in
    memory. *)
Definition np_empty {A} (junk : nat → A) (shape : nat * nat * nat) : list (list (list A)) :=
  unflatten3 shape (junk <$> seq 0 (size_of shape)).

(** ** Python numbers

    The numbers of a label are Python [int]s and [float]s. *)

Inductive pynum :=
| PyInteger (z : Z)
| PyFloat (f : spec_float).

Inductive binop := Mul | Add.

Definition int_op (op : binop) (a b : Z) : Z :=
  match op with
  | Mul => a * b
  | Add => a + b
  end.

Definition float_op (prec emax : Z) (op : binop) (a b : spec_float) : spec_float :=
  match op with
  | Mul => SFmul prec emax a b
  | Add => SFadd prec emax a b
  end.

(** [float(x)]: the nearest double; [OverflowError] for an integer
    beyond the largest double. *)
Definition py_float (x : pynum) : result spec_float :=
  match x with
  | PyFloat f => Ok f
  | PyInteger z =>
      match binary_normalize 53 1024 z 0 false with
      | S754_infinity _ => Raise OverflowError
      | f => Ok f
      end
  end.

(** [x * y] and [x + y] between Python numbers: exact on integers, in
    double precision as soon as one operand is a [float]. *)
Definition py_binop (op : binop) (x y : pynum) : result pynum :=
  match x, y with
  | PyInteger a, PyInteger b => Ok (PyInteger (int_op op a b))
  | _, _ => a ← py_float x; b ← py_float y; mret (PyFloat (float_op 53 1024 op a b))
  end.

(** [x != n] for the integer literals [0] and [1]. *)
Definition py_ne (x : pynum) (n : Z) : bool :=
  match x with
  | PyInteger z => negb (z =? n)
  | PyFloat f => negb (SFeqb f (binary_normalize 53 1024 n 0 false))
  end.

(** ** NumPy: the arithmetic of an array with a Python number

    [number * array], [array + number] and the in-place [array *= number]
    and [array += number], as NumPy 1 computes them; that is the release
    line the module is written for, since it reads [np.NINF] and calls
    [numpy.fromstring] on bytes.  The element type of the loop is chosen
    from the element type of the array and from the value of the number;
    integer arithmetic wraps around in that type, floating-point
    arithmetic is IEEE 754 with rounding to nearest even.  Warnings are
    not modelled. *)

Definition is_unsigned_int (t : np_type) : bool :=
  negb (is_signed_int t) && negb (is_float t).

(** [numpy.promote_types(a, b)] *)
Definition promote_types (a b : np_type) : np_type :=
  if is_float a && is_float b then (if (itemsize a <? itemsize b)%nat then b else a)
  else if is_float a || is_float b then
    let f := if is_float a then a else b in
    let i := if is_float a then b else a in
    match f with
    | float32 => if (itemsize i <=? 2)%nat then float32 else float64
    | _ => float64
    end
  else if bool_decide (is_signed_int a = is_signed_int b)
  then (if (itemsize a <? itemsize b)%nat then b else a)
  else
    let u := if is_signed_int a then b else a in
    let s := if is_signed_int a then a else b in
    if (itemsize u <? itemsize s)%nat then s
    else match itemsize u with
         | 1%nat => int16
         | 2%nat => int32
         | 4%nat => int64
         | _ => float64
         end.

(** [numpy.min_scalar_type(z)] for a Python integer, with the mark of a
    value that also fits the signed type of the same size; [None] beyond
    64 bits, where the number is held as a Python object. *)
Definition min_scalar_int (z : Z) : option (np_type * bool) :=
  if z <? 0 then
    if - 2 ^ 7 <=? z then Some (int8, false)
    else if - 2 ^ 15 <=? z then Some (int16, false)
    else if - 2 ^ 31 <=? z then Some (int32, false)
    else if - 2 ^ 63 <=? z then Some (int64, false)
    else None
  else
    if z <? 2 ^ 8 then Some (uint8, z <? 2 ^ 7)
    else if z <? 2 ^ 16 then Some (uint16, z <? 2 ^ 15)
    else if z <? 2 ^ 32 then Some (uint32, z <? 2 ^ 31)
    else if z <? 2 ^ 64 then Some (uint64, z <? 2 ^ 63)
    else None.

(** [numpy.min_scalar_type(f)] for a Python float, as far as it matters
    against [float32] and [float64]: a value that is not finite or lies
    strictly between [-3.4e38] and [3.4e38] counts as single precision
    (or less). *)
Definition min_scalar_float (f : spec_float) : np_type :=
  match f with
  | S754_finite _ _ _ =>
      if SFltb (SFabs f)
           (binary_normalize 53 1024 339999999999999996123846586046231871488 0 false)
      then float32 else float64
  | _ => float32
  end.

Definition signed_twin (t : np_type) : np_type :=
  match t with
  | uint8 => int8
  | uint16 => int16
  | uint32 => int32
  | uint64 => int64
  | _ => t
  end.

(** The element type of the loop: a numeric type, or Python objects. *)
Inductive loop_type :=
| Numeric (t : np_type)
| Object.

(** [numpy.result_type] of an array of type [t] and the Python number
    [x], by value: a float against integers wins with [float64];
    otherwise the smallest type holding the number is promoted with
    [t]. *)
Definition result_type (t : np_type) (x : pynum) : loop_type :=
  match x with
  | PyFloat f =>
      Numeric (promote_types t (if is_float t then min_scalar_float f else float64))
  | PyInteger z =>
      match min_scalar_int z with
      | Some (m, small) =>
          Numeric (promote_types t
                     (if small && negb (is_unsigned_int t) then signed_twin m else m))
      | None => Object
      end
  end.

Definition float_prec (t : np_type) : Z :=
  match t with
  | float32 => 24
  | _ => 53
  end.

Definition float_emax (t : np_type) : Z :=
  match t with
  | float32 => 128
  | _ => 1024
  end.

(** The number a cell of the floating-point type [t] holds, and back. *)
Definition cell_float (t : np_type) (x : Z) : spec_float :=
  float_of_bits (float_prec t) (float_emax t) (8 * Z.of_nat (itemsize t)) x.

Definition float_cell (t : np_type) (f : spec_float) : Z :=
  bits_of_float (float_prec t) (float_emax t) (8 * Z.of_nat (itemsize t)) f.

(** A floating-point number rounded into the format of [t]. *)
Definition round_float (t : np_type) (f : spec_float) : spec_float :=
  match f with
  | S754_finite s m e =>
      binary_normalize (float_prec t) (float_emax t) (cond_Zopp s (Zpos m)) e s
  | _ => f
  end.

(** Two's complement wrap-around into the integer type [t]. *)
Definition wrap (t : np_type) (z : Z) : Z :=
  let bits := 8 * Z.of_nat (itemsize t) in
  let u := z mod 2 ^ bits in
  if is_signed_int t && (2 ^ (bits - 1) <=? u) then u - 2 ^ bits else u.

(** A cell of type [t] as an operand of a loop of type [T], a promotion
    of [t]: an integer is kept or converted to the floating-point type, a
    float is widened. *)
Definition to_loop (t T : np_type) (x : Z) : Z :=
  if is_float T then
    float_cell T (if is_float t then round_float T (cell_float t x)
                  else binary_normalize (float_prec T) (float_emax T) x 0 false)
  else x.

(** The Python number as an operand of a loop of type [T], which
    [result_type] chose so as to hold it. *)
Definition number_to_loop (T : np_type) (x : pynum) : Z :=
  match x with
  | PyInteger z =>
      if is_float T
      then float_cell T (binary_normalize (float_prec T) (float_emax T) z 0 false)
      else z
  | PyFloat f => float_cell T (round_float T f)
  end.

Definition loop_op (T : np_type) (op : binop) (a b : Z) : Z :=
  if is_float T
  then float_cell T (float_op (float_prec T) (float_emax T) op
                       (cell_float T a) (cell_float T b))
  else wrap T (int_op op a b).

(** The Python object a cell is handed over as in a loop over objects. *)
Definition object_of_cell (t : np_type) (x : Z) : pynum :=
  if is_float t then PyFloat (round_float float64 (cell_float t x)) else PyInteger x.

(** What an arithmetic expression returns: an array of numbers of one
    element type, or an array of Python numbers ([dtype=object]). *)
Inductive array :=
| Cells (a : ndarray Z)
| Objects (shape : nat * nat * nat) (items : list (list (list pynum))).

Definition ordered {A B} (number_first : bool) (f : A → A → B) (x c : A) : B :=
  if number_first then f x c else f c x.

(** [numpy.multiply] and [numpy.add] of an array and a Python number,
    into a new array; [number_first] tells whether the number is the
    first operand. *)
Definition ufunc (op : binop) (number_first : bool) (a : array) (x : pynum)
  : result array :=
  match a with
  | Objects shape items =>
      items ← mapM (mapM (mapM (λ c, ordered number_first (py_binop op) x c))) items;
      mret (Objects shape items)
  | Cells a =>
      let t := base_type (nd_dtype a) in
      match result_type t x with
      | Numeric T =>
          Ok (Cells {| nd_dtype := np_dtype T;
                       nd_shape := nd_shape a;
                       nd_items :=
                         map3 (λ c, ordered number_first (loop_op T op)
                                      (number_to_loop T x) (to_loop t T c))
                           (nd_items a) |})
      | Object =>
          items ← mapM (mapM (mapM (λ c, ordered number_first (py_binop op) x
                                            (object_of_cell t c)))) (nd_items a);
          mret (Objects (nd_shape a) items)
      end
  end.

(** The casting rule ['same_kind'] from the type of the loop back to the
    type of the array: unsigned, signed, floating point, in that order,
    and never downwards. *)
Definition kind_order (t : np_type) : nat :=
  if is_float t then 4 else if is_signed_int t then 2 else 1.

Definition same_kind (T t : np_type) : bool := (kind_order T <=? kind_order t)%nat.

(** The result of a loop of type [T] stored in an array of type [t]. *)
Definition from_loop (T t : np_type) (y : Z) : Z :=
  if is_float t then to_loop T t y else wrap t y.

(** [array *= number] and [array += number]: the loop runs in the type
    [result_type] gives and its output is cast back under ['same_kind'],
    which raises [TypeError] where the cast is not allowed. *)
Definition iufunc (op : binop) (a : ndarray Z) (x : pynum) : result (ndarray Z) :=
  let t := base_type (nd_dtype a) in
  match result_type t x with
  | Numeric T =>
      if same_kind T t
      then Ok {| nd_dtype := nd_dtype a;
                 nd_shape := nd_shape a;
                 nd_items :=
                   map3 (λ c, from_loop T t
                                (loop_op T op (to_loop t T c) (number_to_loop T x)))
                     (nd_items a) |}
      else Raise TypeError
  | Object => Raise TypeError
  end.

(** ** The open file *)

Record stream := { content : list byte; pos : nat }.

(** [stream.seek(offset)] on a file object opened for reading, which is
    what [numpy.fromfile] asks for: a negative offset is refused with
    [OSError]. *)
Definition seek (offset : Z) : io stream () :=
  λ st, if offset <? 0 then Raise OSError
        else Ok ((), {| content := content st; pos := Z.to_nat offset |}).

(** [numpy.fromfile(stream, dtype, count)]: as many whole items as the
    file still holds, at most [count]; a short file gives a short array
    and no error. *)
Definition np_fromfile (host_big_endian : bool) (d : Dtype) (count : nat)
  : io stream (list Z) :=
  λ st,
    let w := itemsize (base_type d) in
    let avail := ((length (content st) - pos st) / w)%nat in
    let n := (count `min` avail)%nat in
    Ok (decode_elem host_big_endian d <$> chunks w n (drop (pos st) (content st)),
        {| content := content st; pos := (pos st + n * w)%nat |}).

(** [ndarray.tobytes()] of a flat run of elements of type [d]. *)
Definition tobytes (host_big_endian : bool) (d : Dtype) (flat : list Z) : list byte :=
  concat (encode_elem host_big_endian d <$> flat).

(** ** Python: module namespaces and name resolution *)

(** What a module global can be bound to. *)
Inductive pyobj :=
| PyModule (name : string)
| PyFunction (name : string)
| PyClass (name : string)
| PyBuiltin (name : string)
| PyAttribute (name : string)
| PyNames (names : list string)
| PySpecials (table : gmap string (gmap string scalar))
| PyDtypes (table : gmap string Dtype)
| PyOrders (table : gmap string byteorder).

Definition builtins : list string :=
  [ "abs"; "all"; "any"; "ascii"; "bin"; "bool"; "bytearray"; "bytes";
    "callable"; "chr"; "classmethod"; "compile"; "complex"; "delattr";
    "dict"; "dir"; "divmod"; "enumerate"; "eval"; "exec"; "filter";
    "float"; "format"; "frozenset"; "getattr"; "globals"; "hasattr";
    "hash"; "help"; "hex"; "id"; "input"; "int"; "isinstance";
    "issubclass"; "iter"; "len"; "list"; "locals"; "map"; "max";
    "memoryview"; "min"; "next"; "object"; "oct"; "open"; "ord"; "pow";
    "print"; "property"; "range"; "repr"; "reversed"; "round"; "set";
    "setattr"; "slice"; "sorted"; "staticmethod"; "str"; "sum"; "super";
    "tuple"; "type"; "vars"; "zip"; "__import__";
    "True"; "False"; "None"; "Ellipsis"; "NotImplemented";
    "Exception"; "KeyError"; "ValueError"; "TypeError"; "NameError";
    "AttributeError"; "OSError"; "IOError"; "ImportError" ]%string.

(** Reading a name at module level or inside a function of the module:
    the module globals first, then the builtins. *)
Definition load_name (x : string) : io (gmap string pyobj) pyobj :=
  λ g, match g !! x with
       | Some v => Ok (v, g)
       | None => if bool_decide (x ∈ builtins) then Ok (PyBuiltin x, g)
                 else Raise (NameError x)
       end.

Definition store_name (x : string) (v : pyobj) : io (gmap string pyobj) () :=
  λ g, Ok ((), <[x := v]> g).

(** [from module import names]: the module body runs in a namespace of
    its own; its exception, if any, is the exception of the import. *)
Definition from_import (body : io (gmap string pyobj) ()) (names : list string)
  : io (gmap string pyobj) () :=
  λ g, match body ∅ with
       | Raise e => Raise e
       | Ok (_, gm) =>
           for_each names
             (λ x (_ : ()), v ← (λ s, match gm !! x with
                                      | Some v => Ok (v, s)
                                      | None => Raise (ImportError x)
                                      end);
                            store_name x v) () g
       end.

(** ** [pysis/constants.py] *)

Module constants.

Section Tables.
Variable host_big_endian : bool.

(** [numpy.fromstring(num, dtype=dtype)[0]] *)
Definition _make_num (num : list byte) (d : Dtype) : scalar :=
  scalar_of_elem (base_type d)
    (decode_elem host_big_endian d (take (itemsize (base_type d)) num)).

(** The dtype strings ['>f4'] and ['>f8']. *)
Definition f4_be : Dtype := {| base_type := float32; order := BigEndian |}.
Definition f8_be : Dtype := {| base_type := float64; order := BigEndian |}.

(** [numpy.finfo(t).max] *)
Definition finfo_max (t : np_type) : scalar :=
  match t with
  | float64 => NpFloat64 (SFmax_float 53 1024)
  | _ => NpFloat32 (SFmax_float 24 128)
  end.

Definition SPECIAL_PIXELS : gmap string (gmap string scalar) :=
  {[ "UnsignedByte" :=
       {[ "Min" := PyInt 1; "Null" := PyInt 0; "Lrs" := PyInt 0;
          "Lis" := PyInt 0; "His" := PyInt 255; "Hrs" := PyInt 255;
          "Max" := PyInt 254 ]};
     "UnsignedWord" :=
       {[ "Min" := PyInt 3; "Null" := PyInt 0; "Lrs" := PyInt 1;
          "Lis" := PyInt 2; "His" := PyInt 65534; "Hrs" := PyInt 65535;
          "Max" := PyInt 65523 ]};
     "SignedWord" :=
       {[ "Min" := PyInt (-32763); "Null" := PyInt (-32768);
          "Lrs" := PyInt (-32767); "Lis" := PyInt (-32766);
          "His" := PyInt (-32765); "Hrs" := PyInt (-32764);
          "Max" := PyInt 32767 ]};
     "SignedInteger" :=
       {[ "Min" := PyInt (-8388608); "Null" := PyInt (-8388613);
          "Lrs" := PyInt (-8388612); "Lis" := PyInt (-8388611);
          "His" := PyInt (-8388610); "Hrs" := PyInt (-8388609);
          "Max" := PyInt 2147483647 ]};
     "Real" :=
       {[ "Min" := _make_num [xff; x7f; xff; xfa] f4_be;
          "Null" := _make_num [xff; x7f; xff; xfb] f4_be;
          "Lrs" := _make_num [xff; x7f; xff; xfc] f4_be;
          "Lis" := _make_num [xff; x7f; xff; xfd] f4_be;
          "His" := _make_num [xff; x7f; xff; xfe] f4_be;
          "Hrs" := _make_num [xff; x7f; xff; xff] f4_be;
          "Max" := finfo_max float32 ]};
     "Double" :=
       {[ "Min" := _make_num [xff; xef; xff; xff; xff; xff; xff; xfa] f8_be;
          "Null" := _make_num [xff; xef; xff; xff; xff; xff; xff; xfb] f8_be;
          "Lrs" := _make_num [xff; xef; xff; xff; xff; xff; xff; xfc] f8_be;
          "Lis" := _make_num [xff; xef; xff; xff; xff; xff; xff; xfd] f8_be;
          "His" := _make_num [xff; xef; xff; xff; xff; xff; xff; xfe] f8_be;
          "Hrs" := _make_num [xff; xef; xff; xff; xff; xff; xff; xff] f8_be;
          "Max" := finfo_max float64 ]} ]}.

(** [np.dtype(name)]: the name [np] is read, then the attribute [dtype]
    of what it is bound to is called; only the NumPy module has it. *)
Definition np_dot_dtype (t : np_type) : io (gmap string pyobj) Dtype :=
  np ← load_name "np";
  lift (match np with
        | PyModule m => if String.eqb m "numpy" then Ok (np_dtype t)
                        else Raise (AttributeError "dtype")
        | _ => Raise (AttributeError "dtype")
        end).

(** The [PIXEL_TYPES] display: its eight values are evaluated in order,
    each one reading the name [np]. *)
Definition PIXEL_TYPES : io (gmap string pyobj) (gmap string Dtype) :=
  unsigned_byte ← np_dot_dtype uint8;
  signed_byte ← np_dot_dtype int8;
  unsigned_word ← np_dot_dtype uint16;
  signed_word ← np_dot_dtype int16;
  unsigned_integer ← np_dot_dtype uint32;
  signed_integer ← np_dot_dtype int32;
  real ← np_dot_dtype float32;
  double ← np_dot_dtype float64;
  mret {[ "UnsignedByte" := unsigned_byte;
          "SignedByte" := signed_byte;
          "UnsignedWord" := unsigned_word;
          "SignedWord" := signed_word;
          "UnsignedInteger" := unsigned_integer;
          "SignedInteger" := signed_integer;
          "Real" := real;
          "Double" := double ]}.

Definition BYTE_ORDERS : gmap string byteorder :=
  {[ "NoByteOrder" := Native;
     "Lsb" := LittleEndian;
     "Msb" := BigEndian ]}.

(** The statements of the module, in order, as effects on its globals:
    [module_prefix] runs up to the assignment of [SPECIAL_PIXELS],
    [module_body] is the whole module.  Evaluating the [SPECIAL_PIXELS]
    display calls [_make_num], whose body reads [numpy]; evaluating the
    [PIXEL_TYPES] display reads [np], which no statement binds. *)
Definition module_prefix : io (gmap string pyobj) () :=
  store_name "numpy" (PyModule "numpy");;
  store_name "__all__" (PyNames ["SPECIAL_PIXELS"]);;
  store_name "_make_num" (PyFunction "_make_num");;
  load_name "_make_num";;
  load_name "numpy";;
  store_name "SPECIAL_PIXELS" (PySpecials SPECIAL_PIXELS).

Definition module_body : io (gmap string pyobj) () :=
  module_prefix;;
  pixel_types ← PIXEL_TYPES;
  store_name "PIXEL_TYPES" (PyDtypes pixel_types);;
  store_name "BYTE_ORDERS" (PyOrders BYTE_ORDERS).

End Tables.

End constants.

(** ** [pysis/cubefile.py] *)

Module cubefile.

(** The fields of the parsed label the reader consults. *)
Record Label := {
  Bands : nat;             (* IsisCube.Core.Dimensions.Bands *)
  Lines : nat;             (* IsisCube.Core.Dimensions.Lines *)
  Samples : nat;           (* IsisCube.Core.Dimensions.Samples *)
  Format : string;         (* IsisCube.Core.Format *)
  TileLines : nat;         (* IsisCube.Core.TileLines *)
  TileSamples : nat;       (* IsisCube.Core.TileSamples *)
  StartByte : Z;           (* IsisCube.Core.StartByte *)
  PixelType : string;      (* IsisCube.Core.Pixels.Type *)
  ByteOrder : string;      (* IsisCube.Core.Pixels.ByteOrder *)
  Base : pynum;               (* IsisCube.Core.Pixels.Base *)
  Multiplier : pynum         (* IsisCube.Core.Pixels.Multiplier *)
}.

Record CubeFile := {
  filename : option string;
  label : Label;
  data : ndarray Z
}.

(** *** Slices of a band *)

(** [len(x[lo:hi])] for a sequence of [len] items. *)
Definition slice_len (lo hi len : nat) : nat := ((hi `min` len) - (lo `min` len))%nat.

(** [a[:rows, :cols]] *)
Definition crop {A} (rows cols : nat) (a : array2 A) : array2 A :=
  {| shape2 := ((rows `min` (shape2 a).1)%nat, (cols `min` (shape2 a).2)%nat);
     rows2 := take cols <$> take rows (rows2 a) |}.

(** NumPy's broadcasting along one axis: [n] source items fill [m]
    places when [n = m], and one source item is repeated. *)
Definition broadcasts (n m : nat) : bool := bool_decide (n = m) || bool_decide (n = 1%nat).

Definition source_index (n m i : nat) : nat := if bool_decide (n = m) then i else 0%nat.

(** [chunk[:] = src], where [chunk] is the view
    [band[line:line + r, sample:sample + c]] of shape [(r, c)]: a source
    whose shape does not broadcast to [(r, c)] raises [ValueError]. *)
Definition assign_block {A} (band : list (list A)) (line sample : nat)
    (chunk_shape : nat * nat) (src : array2 A) : result (list (list A)) :=
  let '(r, c) := chunk_shape in
  let '(n, m) := shape2 src in
  if broadcasts n r && broadcasts m c then
    Ok (imap (λ l row,
          imap (λ s x,
            if (line <=? l)%nat && (l <? line + r)%nat
               && (sample <=? s)%nat && (s <? sample + c)%nat
            then default x (get2 (rows2 src) (source_index n r (l - line))
                              (source_index m c (s - sample)))
            else x) row) band)
  else Raise (ValueError Broadcast).

(** [for band in data: band = body band] with the stream threaded. *)
Fixpoint for_bands {A} (body : A → io stream A) (bands : list A) : io stream (list A) :=
  match bands with
  | [] => mret []
  | band :: rest => band' ← body band; rest' ← for_bands body rest; mret (band' :: rest')
  end.

(** *** The properties and the two decoders

    While the constructor runs the object holds its label only, and the
    properties read nothing else: they are functions of the label.
    [PIXEL_TYPES] and [BYTE_ORDERS] are the module globals the import
    statement binds. *)
Section Reader.
Variable host_big_endian : bool.
Variable PIXEL_TYPES : gmap string Dtype.
Variable BYTE_ORDERS : gmap string byteorder.
Variable junk : nat → Z.

Definition bands (self : Label) : nat := Bands self.
Definition lines (self : Label) : nat := Lines self.
Definition samples (self : Label) : nat := Samples self.
Definition format (self : Label) : string := Format self.

Definition tile_lines (self : Label) : option nat :=
  if decide (format self ≠ "Tile") then None else Some (TileLines self).

Definition tile_samples (self : Label) : option nat :=
  if decide (format self ≠ "Tile") then None else Some (TileSamples self).

Definition dtype (self : Label) : result Dtype :=
  byte_order ← getitem BYTE_ORDERS (ByteOrder self);
  pixel_type ← getitem PIXEL_TYPES (PixelType self);
  mret (newbyteorder pixel_type byte_order).

Definition base (self : Label) : pynum := Base self.
Definition multiplier (self : Label) : pynum := Multiplier self.
Definition start_byte (self : Label) : Z := StartByte self - 1.
Definition shape (self : Label) : nat * nat * nat := (bands self, lines self, samples self).
Definition size (self : Label) : nat := (bands self * lines self * samples self)%nat.

Definition _parse_band_sequential_data (self : Label) : io stream (ndarray Z) :=
  d ← lift (dtype self);
  flat ← np_fromfile host_big_endian d (size self);
  items ← lift (reshape3 (shape self) flat);
  mret {| nd_dtype := d; nd_shape := shape self; nd_items := items |}.

(** The body of the innermost loop. *)
Definition read_tile (self : Label) (d : Dtype) (tile_lines tile_samples : nat)
    (line sample : nat) (band : list (list Z)) : io stream (list (list Z)) :=
  let tile_size := (tile_lines * tile_samples)%nat in
  let sample_end := (sample + tile_samples)%nat in
  let line_end := (line + tile_lines)%nat in
  let chunk_lines := slice_len line line_end (lines self) in
  let chunk_samples := slice_len sample sample_end (samples self) in
  tile ← np_fromfile host_big_endian d tile_size;
  tile ← lift (reshape2 tile_lines tile_samples tile);
  lift (assign_block band line sample (chunk_lines, chunk_samples)
          (crop chunk_lines chunk_samples tile)).

Definition _parse_tile_data (self : Label) : io stream (ndarray Z) :=
  tile_lines ← lift (from_option Ok (Raise TypeError) (tile_lines self));
  tile_samples ← lift (from_option Ok (Raise TypeError) (tile_samples self));
  lines ← lift (py_range (lines self) tile_lines);
  samples ← lift (py_range (samples self) tile_samples);
  d ← lift (dtype self);
  items ← for_bands (λ band,
             for_each lines (λ line band,
               for_each samples (λ sample band,
                 read_tile self d tile_lines tile_samples line sample band) band) band)
           (np_empty junk (shape self));
  mret {| nd_dtype := d; nd_shape := shape self; nd_items := items |}.

Definition _parse_data (self : Label) : io stream (ndarray Z) :=
  seek (start_byte self);;
  if decide (format self = "BandSequential") then _parse_band_sequential_data self
  else if decide (format self = "Tile") then _parse_tile_data self
  else lift (Raise (Exception ("Unkown Isis Cube format (" +:+ format self +:+ ")"))).

End Reader.

(** *** The constructor

    [pvl_load] stands for the label parser, which is not part of the
    reader. *)
Definition __init__ (host_big_endian : bool)
    (PIXEL_TYPES : gmap string Dtype) (BYTE_ORDERS : gmap string byteorder)
    (junk : nat → Z) (pvl_load : list byte → result Label)
    (file : list byte) (name : option string) : result CubeFile :=
  lbl ← pvl_load file;
  '(arr, _) ← _parse_data host_big_endian PIXEL_TYPES BYTE_ORDERS junk lbl
                {| content := file; pos := 0 |};
  mret {| filename := name; label := lbl; data := arr |}.

(** *** Attribute lookup on a [CubeFile] object *)

(** What [__init__] stores on the instance. *)
Definition instance_attributes : list string :=
  [ "filename"; "label"; "data" ]%string.

(** What the class body defines. *)
Definition class_attributes : list string :=
  [ "open"; "__init__"; "apply_scaling"; "apply_numpy_specials";
    "specials_mask"; "get_image_array"; "bands"; "lines"; "samples";
    "tile_lines"; "tile_samples"; "format"; "dtype"; "specials"; "base";
    "multiplier"; "start_byte"; "shape"; "size"; "_parse_label";
    "_parse_data"; "_parse_band_sequential_data"; "_parse_tile_data";
    "__doc__"; "__module__"; "__dict__"; "__weakref__" ]%string.

(** What the base class [object] provides. *)
Definition object_attributes : list string :=
  [ "__class__"; "__delattr__"; "__dir__"; "__eq__"; "__format__";
    "__ge__"; "__getattribute__"; "__gt__"; "__hash__";
    "__init_subclass__"; "__le__"; "__lt__"; "__ne__"; "__new__";
    "__reduce__"; "__reduce_ex__"; "__repr__"; "__setattr__";
    "__sizeof__"; "__str__"; "__subclasshook__" ]%string.

(** [self.name]: the instance, then the class, then [object]. *)
Definition getattr (self : CubeFile) (name : string) : result pyobj :=
  if bool_decide (name ∈ instance_attributes) then Ok (PyAttribute name)
  else if bool_decide (name ∈ class_attributes) then Ok (PyAttribute name)
  else if bool_decide (name ∈ object_attributes) then Ok (PyAttribute name)
  else Raise (AttributeError name).

Definition specials (self : CubeFile) : result (gmap string scalar) :=
  let pixel_type := PixelType (label self) in
  table ← getattr self "SPECIAL_PIXELS";
  match table with
  | PySpecials t => getitem t pixel_type
  | _ => Raise TypeError
  end.

(** *** Scaling *)

Definition with_items {A B} (a : ndarray A) (items : list (list (list B))) : ndarray B :=
  {| nd_dtype := nd_dtype a; nd_shape := nd_shape a; nd_items := items |}.

Definition set_data (self : CubeFile) (d : ndarray Z) : CubeFile :=
  {| filename := filename self; label := label self; data := d |}.

(** Returns the object after the call and the array the call returns.
    With a copy, [self.multiplier * self.data] calls [numpy.multiply]
    with the number first and the sum calls [numpy.add] with the array
    first, each into a new array; without, the two steps work in place
    on [self.data] and are skipped for a multiplier equal to 1 and a
    base equal to 0. *)
Definition apply_scaling (self : CubeFile) (copy : bool) : result (CubeFile * array) :=
  let multiplier := multiplier (label self) in
  let base := base (label self) in
  if copy then
    product ← ufunc Mul true (Cells (data self)) multiplier;
    sum ← ufunc Add false product base;
    mret (self, sum)
  else
    d ← (if py_ne multiplier 1 then iufunc Mul (data self) multiplier
         else mret (data self));
    d ← (if py_ne base 0 then iufunc Add d base else mret d);
    mret (set_data self d, Cells d).

(** *** Special pixels *)

(** The element [x] of the array [a] as a number. *)
Definition elem_scalar (a : ndarray Z) (x : Z) : scalar :=
  scalar_of_elem (base_type (nd_dtype a)) x.

(** [a.astype(np.float64)] *)
Definition astype_float64 (a : ndarray Z) : ndarray Z :=
  {| nd_dtype := np_dtype float64;
     nd_shape := nd_shape a;
     nd_items := map3 (λ x, bits_of_float 53 1024 64 (float64_of_scalar (elem_scalar a x)))
                   (nd_items a) |}.

Definition is_native_float64 (host_big_endian : bool) (d : Dtype) : bool :=
  match base_type d with
  | float64 => bool_decide (big_endian_order host_big_endian (order d) = host_big_endian)
  | _ => false
  end.

(** [a[test(a)] = v] *)
Definition set_where (test : scalar → bool) (v : Z) (a : ndarray Z) : ndarray Z :=
  with_items a (map3 (λ x, if test (elem_scalar a x) then v else x) (nd_items a)).

Definition nan : Z := bits_of_float 53 1024 64 S754_nan.
Definition NINF : Z := bits_of_float 53 1024 64 (S754_infinity true).
Definition inf : Z := bits_of_float 53 1024 64 (S754_infinity false).

(** The three assignments of [apply_numpy_specials] for a given entry of
    the table of special pixels. *)
Definition convert_specials (sp : gmap string scalar) (a : ndarray Z) : result (ndarray Z) :=
  null ← getitem sp "Null";
  let a := set_where (λ x, scalar_eqb x null) nan a in
  lo ← getitem sp "Min";
  let a := set_where (λ x, scalar_ltb x lo) NINF a in
  hi ← getitem sp "Max";
  mret (set_where (λ x, scalar_ltb hi x) inf a).

Definition apply_numpy_specials (host_big_endian : bool) (self : CubeFile) (copy : bool)
  : result (CubeFile * ndarray Z) :=
  let '(self, a) :=
    if copy then (self, astype_float64 (data self))
    else if negb (is_native_float64 host_big_endian (nd_dtype (data self)))
         then (set_data self (astype_float64 (data self)), astype_float64 (data self))
         else (self, data self) in
  sp ← specials self;
  null ← getitem sp "Null";
  let a := set_where (λ x, scalar_eqb x null) nan a in
  sp ← specials self;
  lo ← getitem sp "Min";
  let a := set_where (λ x, scalar_ltb x lo) NINF a in
  sp ← specials self;
  hi ← getitem sp "Max";
  let a := set_where (λ x, scalar_ltb hi x) inf a in
  mret (if copy then self else set_data self a, a).

Definition specials_mask (self : CubeFile) : result (list bool) :=
  let flat := flatten3 (nd_items (data self)) in
  sp ← specials self;
  lo ← getitem sp "Min";
  let mask := (λ x, scalar_leb lo (elem_scalar (data self) x)) <$> flat in
  sp ← specials self;
  hi ← getitem sp "Max";
  mret (zip_with andb mask ((λ x, scalar_leb (elem_scalar (data self) x) hi) <$> flat)).

(** *** The display stretch

    The arithmetic of the stretch is NumPy's and depends on its casting
    rules; it is a parameter of the model. *)
Record stretch_arith := {
  isub : Dtype → Z → Z → Z;                          (* a cell after [cell -= m] *)
  div255 : Dtype → Z → result scalar;                (* [255 / m] *)
  imul : Dtype → list Z → scalar → result (list Z);  (* the cells after [cells *= f] *)
  store_int : Dtype → Z → Z;                         (* the cell after [cell = n] *)
  astype_uint8 : Dtype → Z → Z                       (* a cell of [a.astype(np.uint8)] *)
}.

(** [a[mask]]: the selected cells, in row-major order. *)
Fixpoint select (mask : list bool) (flat : list Z) : list Z :=
  match mask, flat with
  | true :: m, x :: f => x :: select m f
  | false :: m, _ :: f => select m f
  | _, _ => []
  end.

(** [a[mask] = vals] *)
Fixpoint scatter (mask : list bool) (flat vals : list Z) : list Z :=
  match mask, flat with
  | true :: m, x :: f =>
      match vals with
      | v :: vs => v :: scatter m f vs
      | [] => x :: scatter m f []
      end
  | false :: m, x :: f => x :: scatter m f vals
  | _, _ => flat
  end.

(** [cells.min()] and [cells.max()] *)
Definition np_min (t : np_type) (cells : list Z) : result Z :=
  match cells with
  | [] => Raise (ValueError EmptyReduction)
  | x :: rest =>
      Ok (foldl (λ a y, if scalar_ltb (scalar_of_elem t y) (scalar_of_elem t a) then y else a)
            x rest)
  end.

Definition np_max (t : np_type) (cells : list Z) : result Z :=
  match cells with
  | [] => Raise (ValueError EmptyReduction)
  | x :: rest =>
      Ok (foldl (λ a y, if scalar_ltb (scalar_of_elem t a) (scalar_of_elem t y) then y else a)
            x rest)
  end.

Definition get_image_array (ops : stretch_arith) (self : CubeFile) : result (ndarray Z) :=
  mask ← specials_mask self;
  let d := nd_dtype (data self) in
  let flat := flatten3 (nd_items (data self)) in
  lo ← np_min (base_type d) (select mask flat);
  let flat := scatter mask flat (isub ops d lo <$> select mask flat) in
  hi ← np_max (base_type d) (select mask flat);
  factor ← div255 ops d hi;
  cells ← imul ops d (select mask flat) factor;
  let flat := scatter mask flat cells in
  sp ← specials self;
  his ← getitem sp "His";
  let flat := (λ x, if scalar_eqb (scalar_of_elem (base_type d) x) his
                    then store_int ops d 255 else x) <$> flat in
  sp ← specials self;
  hrs ← getitem sp "Hrs";
  let flat := (λ x, if scalar_eqb (scalar_of_elem (base_type d) x) hrs
                    then store_int ops d 255 else x) <$> flat in
  mret {| nd_dtype := np_dtype uint8;
          nd_shape := nd_shape (data self);
          nd_items := unflatten3 (nd_shape (data self)) (astype_uint8 ops d <$> flat) |}.

(** *** The module body and a program that uses the class *)

Definition module_body (host_big_endian : bool) : io (gmap string pyobj) () :=
  store_name "np" (PyModule "numpy");;
  store_name "pvl" (PyModule "pvl");;
  store_name "string_types" (PyAttribute "six.string_types");;
  store_name "range" (PyAttribute "six.moves.range");;
  from_import (constants.module_body host_big_endian)
    [ "PIXEL_TYPES"; "BYTE_ORDERS"; "SPECIAL_PIXELS" ]%string;;
  store_name "CubeFile" (PyClass "CubeFile").

(** [from pysis.cubefile import CubeFile; CubeFile(stream)] *)
Definition import_and_construct (host_big_endian : bool) (junk : nat → Z)
    (pvl_load : list byte → result Label) (file : list byte)
  : result CubeFile :=
  '(_, g) ← module_body host_big_endian ∅;
  match g !! "PIXEL_TYPES", g !! "BYTE_ORDERS" with
  | Some (PyDtypes pixel_types), Some (PyOrders byte_orders) =>
      __init__ host_big_endian pixel_types byte_orders junk pvl_load file None
  | _, _ => Raise (NameError "PIXEL_TYPES")
  end.

(** The two tables as the import statement of the module leaves them in
    its globals, or the exception of the import. *)
Definition imported_tables (host_big_endian : bool)
  : result (gmap string Dtype * gmap string byteorder) :=
  '(_, g) ← module_body host_big_endian ∅;
  match g !! "PIXEL_TYPES", g !! "BYTE_ORDERS" with
  | Some (PyDtypes pixel_types), Some (PyOrders byte_orders) =>
      Ok (pixel_types, byte_orders)
  | _, _ => Raise (NameError "PIXEL_TYPES")
  end.

(** [CubeFile(stream, filename)] in a program whose import of the module
    had the outcome [imported]. *)
Definition construct (imported : result (gmap string Dtype * gmap string byteorder))
    (host_big_endian : bool) (junk : nat → Z)
    (pvl_load : list byte → result Label)
    (file : list byte) (name : option string) : result CubeFile :=
  '(pixel_types, byte_orders) ← imported;
  __init__ host_big_endian pixel_types byte_orders junk pvl_load file name.

End cubefile.

(** * Vocabulary of the properties *)

Import cubefile.

(** ** The table of special pixels *)

Definition encodings : list string :=
  [ "UnsignedByte"; "UnsignedWord"; "SignedWord"; "SignedInteger"; "Real"; "Double" ]%string.

Definition sentinels : list string := [ "Null"; "Lrs"; "Lis"; "His"; "Hrs" ]%string.

Definition min_le_max (sp : gmap string scalar) : bool :=
  match sp !! "Min", sp !! "Max" with
  | Some lo, Some hi => scalar_leb lo hi
  | _, _ => false
  end.

Definition in_valid_range (sp : gmap string scalar) (v : scalar) : bool :=
  match sp !! "Min", sp !! "Max" with
  | Some lo, Some hi => scalar_leb lo v && scalar_leb v hi
  | _, _ => false
  end.

Definition sentinels_outside (sp : gmap string scalar) : bool :=
  forallb (λ k, match sp !! k with
                | Some v => negb (in_valid_range sp v)
                | None => false
                end) sentinels.

Definition collide (sp : gmap string scalar) (k1 k2 : string) : bool :=
  match sp !! k1, sp !! k2 with
  | Some a, Some b => scalar_eqb a b
  | _, _ => true
  end.

Definition sentinels_distinct (sp : gmap string scalar) : bool :=
  forallb (λ k1, forallb (λ k2, bool_decide (k1 = k2) || negb (collide sp k1 k2))
                   sentinels) sentinels.

Definition is_int (sp : gmap string scalar) (k : string) (z : Z) : bool :=
  match sp !! k with
  | Some (PyInt v) => v =? z
  | _ => false
  end.

(** The sentinels of the 8-bit encoding: one low value, 0, and one high
    value, 255. *)
Definition byte_sentinels (sp : gmap string scalar) : bool :=
  is_int sp "Null" 0 && is_int sp "Lrs" 0 && is_int sp "Lis" 0
  && is_int sp "His" 255 && is_int sp "Hrs" 255
  && collide sp "Null" "Lrs" && collide sp "Null" "Lis" && collide sp "His" "Hrs"
  && negb (collide sp "Null" "His").

(** ** Elements of the data region *)

(** The [k]-th element of type [d] counted from byte [start] of the file. *)
Definition elem_at (host_big_endian : bool) (d : Dtype) (file : list byte)
    (start k : nat) : Z :=
  let w := itemsize (base_type d) in
  decode_elem host_big_endian d (take w (drop (start + k * w) file)).

(** The number of whole elements of type [d] the file holds from byte
    [start] on. *)
Definition available (d : Dtype) (file : list byte) (start : nat) : nat :=
  ((length file - start) / itemsize (base_type d))%nat.

(** Number of tiles along an axis of [len] cells cut in runs of [step]. *)
Definition tile_count (len step : nat) : nat := ((len + step - 1) / step)%nat.

(** The number of elements a decoder asks the file for. *)
Definition required_elements (self : Label) : nat :=
  if decide (format self = "Tile")
  then (bands self
        * (tile_count (lines self) (TileLines self)
           * (tile_count (samples self) (TileSamples self)
              * (TileLines self * TileSamples self))))%nat
  else size self.

(** ** The cells a sequence of tile reads writes

    [writes band band' W]: [band'] is [band] with the cell [(l, s)]
    replaced by [v] wherever [W l s = Some v]. *)
Definition writes (band band' : list (list Z)) (W : nat → nat → option Z) : Prop :=
  ∀ l s, get2 band' l s = (λ x, default x (W l s)) <$> get2 band l s.

Definition override {A} (later earlier : nat → nat → option A) : nat → nat → option A :=
  λ l s, match later l s with
         | Some v => Some v
         | None => earlier l s
         end.

Section TileWrites.
Variable value : nat → Z.
Variables nl ns tl ts : nat.

(** The tile read at origin [(line, sample)] once [K] elements have been
    consumed. *)
Definition tile_writes (line sample K : nat) : nat → nat → option Z :=
  λ l s,
    if (line <=? l)%nat && (l <? line + slice_len line (line + tl) nl)%nat
       && (sample <=? s)%nat && (s <? sample + slice_len sample (sample + ts) ns)%nat
    then Some (value (K + (l - line) * ts + (s - sample))%nat)
    else None.

(** [n] tiles of a tile row, from tile column [a]. *)
Fixpoint row_writes (line a n K : nat) : nat → nat → option Z :=
  match n with
  | O => λ _ _, None
  | S n' => override (row_writes line (S a) n' (K + tl * ts)%nat)
              (tile_writes line (a * ts)%nat K)
  end.

(** [m] tile rows of [nc] tiles each, from tile row [a]. *)
Fixpoint band_writes (nc a m K : nat) : nat → nat → option Z :=
  match m with
  | O => λ _ _, None
  | S m' => override (band_writes nc (S a) m' (K + nc * (tl * ts))%nat)
              (row_writes (a * tl)%nat 0 nc K)
  end.
End TileWrites.

(** ** The tables once [np] names NumPy

    The outcome the import would have had [constants] bound [np] to the
    NumPy module ([import numpy as np]): the values of its two
    displays. *)
Definition tables_with_np : result (gmap string Dtype * gmap string byteorder) :=
  '(pixel_types, _) ← constants.PIXEL_TYPES {[ "np" := PyModule "numpy" ]};
  mret (pixel_types, constants.BYTE_ORDERS).

(** The dictionary the [PIXEL_TYPES] display evaluates to there. *)
Definition pixel_types_with_np : gmap string Dtype :=
  {[ "UnsignedByte" := np_dtype uint8;
     "SignedByte" := np_dtype int8;
     "UnsignedWord" := np_dtype uint16;
     "SignedWord" := np_dtype int16;
     "UnsignedInteger" := np_dtype uint32;
     "SignedInteger" := np_dtype int32;
     "Real" := np_dtype float32;
     "Double" := np_dtype float64 ]}.

(** ** The error kinds of the specification *)

Inductive error_kind :=
| UnsupportedEncoding
| UnknownByteOrder
| UnsupportedLayout
| TruncatedData.

(** What each kind says about the label and the file. *)
Definition cause (PIXEL_TYPES : gmap string Dtype) (BYTE_ORDERS : gmap string byteorder)
    (self : Label) (file : list byte) (k : error_kind) : Prop :=
  match k with
  | UnsupportedEncoding => PIXEL_TYPES !! PixelType self = None
  | UnknownByteOrder => BYTE_ORDERS !! ByteOrder self = None
  | UnsupportedLayout => format self ≠ "BandSequential" ∧ format self ≠ "Tile"
  | TruncatedData =>
      ∃ d, dtype PIXEL_TYPES BYTE_ORDERS self = Ok d ∧
           (available d file (Z.to_nat (start_byte self)) < required_elements self)%nat
  end.

(** The exceptions of the reader can be read as the four kinds: with the
    tables bound, every failure of the constructor has a kind, and the
    cause of that kind holds. *)
Definition four_error_kinds : Prop :=
  ∀ PIXEL_TYPES BYTE_ORDERS,
    tables_with_np = Ok (PIXEL_TYPES, BYTE_ORDERS) →
    ∃ kind_of : exn → error_kind,
      ∀ (host_big_endian : bool) (junk : nat → Z) (self : Label) (file : list byte)
        (e : exn),
        __init__ host_big_endian PIXEL_TYPES BYTE_ORDERS junk (λ _, Ok self) file None
        = Raise e →
        cause PIXEL_TYPES BYTE_ORDERS self file (kind_of e).

(** ** Cubes used as concrete inputs *)

Definition signed_word_label : Label :=
  {| Bands := 1; Lines := 1; Samples := 2; Format := "BandSequential";
     TileLines := 0; TileSamples := 0; StartByte := 1;
     PixelType := "SignedWord"; ByteOrder := "Lsb";
     Base := PyInteger 0; Multiplier := PyInteger 1 |}.

(** One line holding the raw values of [Null] and of [His]. *)
Definition signed_word_cube : CubeFile :=
  {| filename := None;
     label := signed_word_label;
     data := {| nd_dtype := {| base_type := int16; order := LittleEndian |};
                nd_shape := (1, 1, 2)%nat;
                nd_items := [[[ -32768; -32765 ]]] |} |}.

(** A pixel type the tables do not know, and a byte order they do not
    know, spelled alike. *)
Definition unknown_type_label : Label :=
  {| Bands := 1; Lines := 1; Samples := 2; Format := "BandSequential";
     TileLines := 0; TileSamples := 0; StartByte := 1;
     PixelType := "Complex"; ByteOrder := "Lsb";
     Base := PyInteger 0; Multiplier := PyInteger 1 |}.

Definition unknown_order_label : Label :=
  {| Bands := 1; Lines := 1; Samples := 2; Format := "BandSequential";
     TileLines := 0; TileSamples := 0; StartByte := 1;
     PixelType := "SignedWord"; ByteOrder := "Complex";
     Base := PyInteger 0; Multiplier := PyInteger 1 |}.

(** Three lines of three samples in tiles of two by two, one byte each,
    after a two-byte header. *)
Definition tiled_label : Label :=
  {| Bands := 1; Lines := 3; Samples := 3; Format := "Tile";
     TileLines := 2; TileSamples := 2; StartByte := 3;
     PixelType := "UnsignedByte"; ByteOrder := "Lsb";
     Base := PyInteger 0; Multiplier := PyInteger 1 |}.

Definition tiled_file : list byte :=
  [ x4c; x42; x01; x02; x03; x04; x05; x06; x07; x08;
    x09; x0a; x0b; x0c; x0d; x0e; x0f; x10 ].

(** The same cube with a tile height of 0. *)
Definition flat_tile_label : Label :=
  {| Bands := 1; Lines := 3; Samples := 3; Format := "Tile";
     TileLines := 0; TileSamples := 2; StartByte := 3;
     PixelType := "UnsignedByte"; ByteOrder := "Lsb";
     Base := PyInteger 0; Multiplier := PyInteger 1 |}.

(** Two bands of one line of two big-endian 16-bit samples. *)
Definition sequential_label : Label :=
  {| Bands := 2; Lines := 1; Samples := 2; Format := "BandSequential";
     TileLines := 0; TileSamples := 0; StartByte := 3;
     PixelType := "SignedWord"; ByteOrder := "Msb";
     Base := PyInteger 0; Multiplier := PyInteger 1 |}.

Definition sequential_file : list byte :=
  [ x4c; x42; x00; x01; xff; xfe; x7f; xff; x80; x00 ].

(** The same cube with a start byte of 0. *)
Definition start_zero_label : Label :=
  {| Bands := 2; Lines := 1; Samples := 2; Format := "BandSequential";
     TileLines := 0; TileSamples := 0; StartByte := 0;
     PixelType := "SignedWord"; ByteOrder := "Msb";
     Base := PyInteger 0; Multiplier := PyInteger 1 |}.

(** The Python float of an integer literal. *)
Definition py_float_of (z : Z) : pynum := PyFloat (binary_normalize 53 1024 z 0 false).

(** A 16-bit cube of one cell, scaled by 2 and offset by -1 with the two
    numbers written as integers, and as reals. *)
Definition scaling_cube (raw : Z) (multiplier base : pynum) : CubeFile :=
  {| filename := None;
     label := {| Bands := 1; Lines := 1; Samples := 1; Format := "BandSequential";
                 TileLines := 0; TileSamples := 0; StartByte := 1;
                 PixelType := "SignedWord"; ByteOrder := "Lsb";
                 Base := base; Multiplier := multiplier |};
     data := {| nd_dtype := {| base_type := int16; order := LittleEndian |};
                nd_shape := (1, 1, 1)%nat;
                nd_items := [[[ raw ]]] |} |}.

(** * Properties *)

(** ** Loading the modules *)

Lemma module_prefix_runs (host_big_endian : bool) :
  constants.module_prefix host_big_endian ∅
  = Ok ((), <["SPECIAL_PIXELS" := PySpecials (constants.SPECIAL_PIXELS host_big_endian)]>
              (<["_make_num" := PyFunction "_make_num"]>
                 (<["__all__" := PyNames ["SPECIAL_PIXELS"]]>
                    (<["numpy" := PyModule "numpy"]> ∅)))).
Proof.
  unfold constants.module_prefix.
  generalize (constants.SPECIAL_PIXELS host_big_endian). intros table.
  unfold mbind, io_bind, store_name, load_name.
  rewrite lookup_insert_eq.
  rewrite lookup_insert_ne by discriminate.
  rewrite lookup_insert_ne by discriminate.
  rewrite lookup_insert_eq. reflexivity.
Qed.

Lemma np_is_unbound (host_big_endian : bool) (table : gmap string (gmap string scalar)) :
  load_name "np"
    (<["SPECIAL_PIXELS" := PySpecials table]>
       (<["_make_num" := PyFunction "_make_num"]>
          (<["__all__" := PyNames ["SPECIAL_PIXELS"]]>
             (<["numpy" := PyModule "numpy"]> ∅))))
  = Raise (NameError "np").
Proof.
  unfold load_name.
  rewrite !lookup_insert_ne by discriminate. rewrite lookup_empty.
  reflexivity.
Qed.

Lemma constants_body_raises (host_big_endian : bool) :
  constants.module_body host_big_endian ∅ = Raise (NameError "np").
Proof.
  unfold constants.module_body. unfold mbind at 1, io_bind at 1.
  rewrite module_prefix_runs.
  unfold mbind at 1, io_bind at 1.
  unfold constants.PIXEL_TYPES. unfold mbind at 1, io_bind at 1.
  unfold constants.np_dot_dtype. unfold mbind at 1, io_bind at 1.
  rewrite (np_is_unbound host_big_endian). reflexivity.
Qed.

Lemma module_body_raises (host_big_endian : bool) :
  cubefile.module_body host_big_endian ∅ = Raise (NameError "np").
Proof.
  unfold cubefile.module_body, from_import.
  cbn [mbind io_bind store_name]. rewrite constants_body_raises. reflexivity.
Qed.

Lemma import_and_construct_raises host_big_endian junk pvl_load file :
  import_and_construct host_big_endian junk pvl_load file = Raise (NameError "np").
Proof.
  unfold import_and_construct. cbn [mbind result_bind].
  rewrite module_body_raises. reflexivity.
Qed.

Lemma imported_tables_raises host_big_endian :
  imported_tables host_big_endian = Raise (NameError "np").
Proof.
  unfold imported_tables. cbn [mbind result_bind].
  rewrite module_body_raises. reflexivity.
Qed.

Lemma tables_with_np_eq :
  tables_with_np = Ok (pixel_types_with_np, constants.BYTE_ORDERS).
Proof.
  vm_cast_no_check (eq_refl (Ok (pixel_types_with_np, constants.BYTE_ORDERS))).
Qed.

(** C10. The statements of [constants] before the [PIXEL_TYPES] display
    bind [numpy] and never [np], which is no builtin either; so the body
    of [constants] stops at that display with a [NameError] for [np];
    importing [cubefile] runs that body and stops with the same
    exception; so no program obtains a [CubeFile], whatever the label and
    the file. *)
Theorem import_raises_name_error :
  ∀ (host_big_endian : bool) (junk : nat → Z)
    (pvl_load : list byte → result Label) (file : list byte),
    (∃ g, constants.module_prefix host_big_endian ∅ = Ok ((), g)
          ∧ g !! "numpy" = Some (PyModule "numpy") ∧ g !! "np" = None) ∧
    ("np" ∉ builtins) ∧
    constants.module_body host_big_endian ∅ = Raise (NameError "np") ∧
    cubefile.module_body host_big_endian ∅ = Raise (NameError "np") ∧
    import_and_construct host_big_endian junk pvl_load file = Raise (NameError "np").
Proof.
  intros host junk pvl_load file.
  split; [|split; [|split; [|split]]].
  - eexists. split; [apply module_prefix_runs|]. split.
    + rewrite !lookup_insert_ne by discriminate. apply lookup_insert_eq.
    + rewrite !lookup_insert_ne by discriminate. apply lookup_empty.
  - apply (bool_decide_unpack _). vm_compute. exact I.
  - apply constants_body_raises.
  - apply module_body_raises.
  - apply import_and_construct_raises.
Qed.

(** ** Attribute lookup *)

Lemma getattr_SPECIAL_PIXELS (self : CubeFile) :
  getattr self "SPECIAL_PIXELS" = Raise (AttributeError "SPECIAL_PIXELS").
Proof. vm_compute. reflexivity. Qed.

Lemma specials_raises (self : CubeFile) :
  specials self = Raise (AttributeError "SPECIAL_PIXELS").
Proof. unfold specials. rewrite getattr_SPECIAL_PIXELS. reflexivity. Qed.

(** C9. [SPECIAL_PIXELS] is neither stored on the instance nor defined in
    the class body, so the [specials] property raises [AttributeError]
    for every object, and with it the three methods that read it. *)
Theorem specials_attribute_error :
  ∀ (host_big_endian : bool) (ops : stretch_arith) (self : CubeFile) (copy : bool),
    ("SPECIAL_PIXELS" ∉ instance_attributes ++ (class_attributes ++ object_attributes)) ∧
    specials self = Raise (AttributeError "SPECIAL_PIXELS") ∧
    apply_numpy_specials host_big_endian self copy = Raise (AttributeError "SPECIAL_PIXELS") ∧
    specials_mask self = Raise (AttributeError "SPECIAL_PIXELS") ∧
    get_image_array ops self = Raise (AttributeError "SPECIAL_PIXELS").
Proof.
  intros host ops self copy. split; [|split; [|split; [|split]]].
  - apply (bool_decide_unpack _). vm_compute. exact I.
  - apply specials_raises.
  - unfold apply_numpy_specials.
    destruct copy; [|destruct (negb _)]; cbn zeta; rewrite specials_raises; reflexivity.
  - unfold specials_mask. rewrite specials_raises. reflexivity.
  - unfold get_image_array, specials_mask. rewrite specials_raises. reflexivity.
Qed.

(** ** The table of special pixels *)

Lemma special_pixels_checked (host_big_endian : bool) :
  map_Forall (λ name sp,
      name ∈ encodings ∧ min_le_max sp = true ∧ sentinels_outside sp = true ∧
      (if bool_decide (name = "UnsignedByte") then byte_sentinels sp
       else sentinels_distinct sp) = true)
    (constants.SPECIAL_PIXELS host_big_endian).
Proof.
  destruct host_big_endian; apply (bool_decide_unpack _); vm_compute; exact I.
Qed.

Lemma special_pixels_encodings (host_big_endian : bool) :
  Forall (λ name, is_Some (constants.SPECIAL_PIXELS host_big_endian !! name)) encodings.
Proof.
  destruct host_big_endian; apply (bool_decide_unpack _); vm_compute; exact I.
Qed.

Lemma is_int_lookup (sp : gmap string scalar) (k : string) (z : Z) :
  is_int sp k z = true → sp !! k = Some (PyInt z).
Proof.
  unfold is_int. destruct (sp !! k) as [[v| |]|]; try discriminate.
  intros H. apply Z.eqb_eq in H. subst. reflexivity.
Qed.

Lemma unsigned_byte_entry (host_big_endian : bool) :
  constants.SPECIAL_PIXELS host_big_endian !! "UnsignedByte"
  = Some {[ "Min" := PyInt 1; "Null" := PyInt 0; "Lrs" := PyInt 0;
            "Lis" := PyInt 0; "His" := PyInt 255; "Hrs" := PyInt 255;
            "Max" := PyInt 254 ]}.
Proof. destruct host_big_endian; vm_compute; reflexivity. Qed.

(** C3, as stated, fails: in the [UnsignedByte] entry [Null], [Lrs] and
    [Lis] are all 0, and [His] and [Hrs] are both 255. *)
Lemma special_pixels_not_all_distinct :
  ¬ (∀ (host_big_endian : bool) (name : string) (sp : gmap string scalar),
       constants.SPECIAL_PIXELS host_big_endian !! name = Some sp →
       min_le_max sp = true ∧ sentinels_distinct sp = true ∧ sentinels_outside sp = true).
Proof.
  intros H.
  destruct (H false _ _ (unsigned_byte_entry false)) as (_ & Hd & _).
  vm_compute in Hd. discriminate Hd.
Qed.

(** C3, amended. The table has the six encodings; in each, [Min ≤ Max]
    and none of the five sentinels lies in [[Min, Max]]; the five
    sentinels are pairwise different in every encoding but
    [UnsignedByte], where [Null], [Lrs] and [Lis] are 0 and [His] and
    [Hrs] are 255. *)
Theorem special_pixels_registry :
  ∀ (host_big_endian : bool) (name : string) (sp : gmap string scalar),
    constants.SPECIAL_PIXELS host_big_endian !! name = Some sp →
    name ∈ encodings ∧
    (∀ other, other ∈ encodings →
              is_Some (constants.SPECIAL_PIXELS host_big_endian !! other)) ∧
    min_le_max sp = true ∧
    sentinels_outside sp = true ∧
    (if bool_decide (name = "UnsignedByte") then byte_sentinels sp
     else sentinels_distinct sp) = true ∧
    (name = "UnsignedByte" →
     sp !! "Null" = Some (PyInt 0) ∧ sp !! "Lrs" = Some (PyInt 0) ∧
     sp !! "Lis" = Some (PyInt 0) ∧
     sp !! "His" = Some (PyInt 255) ∧ sp !! "Hrs" = Some (PyInt 255)).
Proof.
  intros host name sp Hsp.
  destruct (special_pixels_checked host name sp Hsp) as (Hin & Hle & Hout & Hd).
  split; [exact Hin|]. split.
  { intros other Hother.
    exact (proj1 (Forall_forall _ _) (special_pixels_encodings host) other Hother). }
  split; [exact Hle|]. split; [exact Hout|]. split; [exact Hd|].
  intros Hname. rewrite bool_decide_true in Hd by exact Hname.
  unfold byte_sentinels in Hd.
  repeat (apply andb_prop in Hd; destruct Hd as [Hd ?]).
  repeat split; apply is_int_lookup; assumption.
Qed.

(** The [UnsignedByte] entry: the low sentinels are 0, the high ones
    255, around the valid range from 1 to 254. *)
Lemma special_pixels_registry_witness :
  constants.SPECIAL_PIXELS false !! "UnsignedByte"
  = Some {[ "Min" := PyInt 1; "Null" := PyInt 0; "Lrs" := PyInt 0;
            "Lis" := PyInt 0; "His" := PyInt 255; "Hrs" := PyInt 255;
            "Max" := PyInt 254 ]}
  ∧ "UnsignedByte" ∈ encodings
  ∧ ({[ "Min" := PyInt 1; "Null" := PyInt 0; "Lrs" := PyInt 0;
        "Lis" := PyInt 0; "His" := PyInt 255; "Hrs" := PyInt 255;
        "Max" := PyInt 254 ]} : gmap string scalar) !! "Hrs" = Some (PyInt 255).
Proof.
  split; [exact (unsigned_byte_entry false)|].
  pose proof (special_pixels_registry false "UnsignedByte" _ (unsigned_byte_entry false))
    as (Hin & _ & _ & _ & _ & Hbyte).
  split; [exact Hin|].
  exact (proj2 (proj2 (proj2 (proj2 (Hbyte eq_refl))))).
Defined.

(** ** Scaling *)

Lemma promote_with_float64 (t : np_type) :
  is_float t = false → promote_types t float64 = float64.
Proof. destruct t; intros H; try discriminate H; reflexivity. Qed.

Lemma in_place_float_on_integers (op : binop) (a : ndarray Z) (f : spec_float) :
  is_float (base_type (nd_dtype a)) = false →
  iufunc op a (PyFloat f) = Raise TypeError.
Proof.
  intros Ht. unfold iufunc, result_type. rewrite Ht.
  rewrite promote_with_float64 by exact Ht.
  unfold same_kind, kind_order. rewrite Ht. cbn [is_float].
  destruct (is_signed_int _); reflexivity.
Qed.

(** C7, evaluated. Without a copy, [apply_scaling] raises [TypeError]
    on every cube of integer pixels whose multiplier is a real number
    other than 1: the product is computed in double precision and may
    not be stored in the integer array, which is the failure the To-Do
    of its docstring reports.  On the 16-bit cube holding 10, with
    multiplier 2.0 and base -1.0, the call fails that way, where the
    call with a copy returns 19.0 in a [float64] array.  With the two
    numbers written as the integers 2 and -1 both calls return 19, in
    the 16-bit type of the data: there a raw 20000 becomes -25537. *)
Theorem apply_scaling_int16 :
  (∀ (self : CubeFile) (f : spec_float),
     is_float (base_type (nd_dtype (data self))) = false →
     multiplier (label self) = PyFloat f →
     py_ne (PyFloat f) 1 = true →
     apply_scaling self false = Raise TypeError)
  ∧ apply_scaling (scaling_cube 10 (py_float_of 2) (py_float_of (-1))) false
    = Raise TypeError
  ∧ apply_scaling (scaling_cube 10 (py_float_of 2) (py_float_of (-1))) true
    = Ok (scaling_cube 10 (py_float_of 2) (py_float_of (-1)),
          Cells {| nd_dtype := np_dtype float64;
                   nd_shape := (1, 1, 1)%nat;
                   nd_items := [[[ float_cell float64
                                     (binary_normalize 53 1024 19 0 false) ]]] |})
  ∧ (∀ copy : bool,
       ∃ cube d,
         apply_scaling (scaling_cube 10 (PyInteger 2) (PyInteger (-1))) copy
         = Ok (cube, Cells {| nd_dtype := d; nd_shape := (1, 1, 1)%nat;
                              nd_items := [[[ 19 ]]] |})
         ∧ base_type d = int16)
  ∧ (∀ copy : bool,
       ∃ cube d,
         apply_scaling (scaling_cube 20000 (PyInteger 2) (PyInteger (-1))) copy
         = Ok (cube, Cells {| nd_dtype := d; nd_shape := (1, 1, 1)%nat;
                              nd_items := [[[ -25537 ]]] |})
         ∧ base_type d = int16).
Proof.
  split; [|split; [|split; [|split]]].
  - intros self f Ht Hm Hne. unfold apply_scaling. rewrite Hm, Hne.
    rewrite in_place_float_on_integers by exact Ht. reflexivity.
  - vm_compute. reflexivity.
  - vm_compute. reflexivity.
  - intros [|]; eexists _, _; (split; [vm_compute; reflexivity|reflexivity]).
  - intros [|]; eexists _, _; (split; [vm_compute; reflexivity|reflexivity]).
Qed.

(** The 16-bit cube holding 10, with multiplier 2.0 and base -1.0. *)
Lemma apply_scaling_int16_witness :
  is_float (base_type (nd_dtype (data (scaling_cube 10 (py_float_of 2) (py_float_of (-1))))))
  = false
  ∧ py_ne (py_float_of 2) 1 = true
  ∧ apply_scaling (scaling_cube 10 (py_float_of 2) (py_float_of (-1))) false
    = Raise TypeError.
Proof.
  split; [reflexivity|]. split; [vm_compute; reflexivity|].
  exact (proj1 apply_scaling_int16
           (scaling_cube 10 (py_float_of 2) (py_float_of (-1))) _
           eq_refl eq_refl ltac:(vm_compute; reflexivity)).
Defined.

(** ** Special pixels and the display stretch *)

(** C4, evaluated. On a [SignedWord] line holding [Null] and [His],
    [apply_numpy_specials] raises [AttributeError]; and the three
    assignments of its body, given the [SignedWord] entry of the table,
    send [Null] to NaN but [His] to minus infinity. *)
Theorem apply_numpy_specials_signed_word :
  apply_numpy_specials false signed_word_cube true
  = Raise (AttributeError "SPECIAL_PIXELS") ∧
  (sp ← getitem (constants.SPECIAL_PIXELS false) "SignedWord";
   a ← convert_specials sp (astype_float64 (data signed_word_cube));
   mret (nd_items a)) = Ok [[[ nan; NINF ]]].
Proof. split; vm_compute; reflexivity. Qed.

(** C5, evaluated. [get_image_array] raises [AttributeError] before any
    pixel is stretched, whatever the arithmetic. *)
Theorem get_image_array_signed_word :
  ∀ ops : stretch_arith,
    get_image_array ops signed_word_cube = Raise (AttributeError "SPECIAL_PIXELS").
Proof.
  intros ops. unfold get_image_array, specials_mask.
  rewrite specials_raises. reflexivity.
Qed.

(** ** Arrays as nested lists *)

Local Open Scope nat_scope.

Lemma flat_index_bound (i n r m : nat) : i < n → r < m → i * m + r < n * m.
Proof.
  intros Hi Hr. pose proof (Nat.mul_le_mono_r (S i) n m ltac:(lia)). lia.
Qed.

Lemma flat_index_bound3 nb nl ns i j k :
  i < nb → j < nl → k < ns → i * (nl * ns) + j * ns + k < nb * nl * ns.
Proof.
  intros Hi Hj Hk. rewrite <- Nat.add_assoc, <- Nat.mul_assoc.
  apply flat_index_bound; [assumption|]. apply flat_index_bound; assumption.
Qed.

Section Chunks.
Context {A : Type}.
Implicit Types (l flat : list A) (n k i j : nat).

Lemma length_chunks n k l : length (chunks n k l) = k.
Proof. revert l; induction k as [|k IH]; intros l; cbn; [reflexivity|]. by rewrite IH. Qed.

Lemma lookup_chunks n k l i :
  i < k → chunks n k l !! i = Some (take n (drop (i * n) l)).
Proof.
  revert l i; induction k as [|k IH]; intros l i Hi; [lia|].
  destruct i as [|i]; cbn; [reflexivity|].
  rewrite IH by lia. rewrite drop_drop. reflexivity.
Qed.

Lemma get2_chunks rows cols l i j :
  i < rows → j < cols → get2 (chunks cols rows l) i j = l !! (i * cols + j).
Proof.
  intros Hi Hj. unfold get2. rewrite lookup_chunks by done.
  rewrite lookup_take_lt by done. apply lookup_drop.
Qed.

Lemma get3_unflatten3 nb nl ns flat i j k :
  i < nb → j < nl → k < ns →
  get3 (unflatten3 (nb, nl, ns) flat) i j k = flat !! (i * (nl * ns) + j * ns + k).
Proof.
  intros Hi Hj Hk. unfold get3, unflatten3.
  rewrite list_lookup_fmap, lookup_chunks by done. cbn [fmap option_fmap option_map].
  rewrite get2_chunks by done.
  rewrite lookup_take_lt by (apply flat_index_bound; assumption).
  rewrite lookup_drop. f_equal. lia.
Qed.

Lemma length_unflatten3 nb nl ns flat : length (unflatten3 (nb, nl, ns) flat) = nb.
Proof. unfold unflatten3. rewrite length_fmap. apply length_chunks. Qed.

Lemma get3_unflatten3_outside nb nl ns flat i j k :
  nb ≤ i ∨ nl ≤ j ∨ ns ≤ k → get3 (unflatten3 (nb, nl, ns) flat) i j k = None.
Proof.
  intros H. unfold get3, get2, unflatten3. rewrite list_lookup_fmap.
  destruct (decide (i < nb)) as [Hi|Hi].
  - rewrite lookup_chunks by exact Hi. cbn [fmap option_fmap option_map].
    destruct (decide (j < nl)) as [Hj|Hj].
    + rewrite lookup_chunks by exact Hj. apply lookup_take_ge. lia.
    + rewrite (proj2 (lookup_ge_None _ _)); [reflexivity|]. rewrite length_chunks. lia.
  - rewrite (proj2 (lookup_ge_None _ _)); [reflexivity|]. rewrite length_chunks. lia.
Qed.

Lemma concat_chunks n k l :
  k * n ≤ length l → concat (chunks n k l) = take (k * n) l.
Proof.
  revert l; induction k as [|k IH]; intros l Hl; cbn; [reflexivity|].
  rewrite IH by (rewrite length_drop; lia).
  apply take_take_drop.
Qed.

Lemma flatten3_unflatten3 nb nl ns flat :
  length flat = nb * nl * ns → flatten3 (unflatten3 (nb, nl, ns) flat) = flat.
Proof.
  unfold flatten3, unflatten3.
  revert flat; induction nb as [|nb IH]; intros flat Hlen; cbn.
  - destruct flat; [reflexivity|cbn in Hlen; lia].
  - rewrite concat_app, IH by (rewrite length_drop; lia).
    rewrite concat_chunks by (rewrite length_take; lia).
    rewrite take_take, Nat.min_id. apply take_drop.
Qed.

Lemma get2_imap {B} (f : nat → nat → A → B) (a : list (list A)) i j :
  get2 (imap (λ r row, imap (f r) row) a) i j = f i j <$> get2 a i j.
Proof.
  unfold get2. rewrite list_lookup_imap.
  destruct (a !! i) as [row|]; cbn; [|reflexivity].
  apply list_lookup_imap.
Qed.

Lemma get2_crop rows cols (a : array2 A) i j :
  get2 (rows2 (crop rows cols a)) i j
  = if (i <? rows) && (j <? cols) then get2 (rows2 a) i j else None.
Proof.
  unfold get2, crop. cbn [rows2]. rewrite list_lookup_fmap, lookup_take.
  destruct (Nat.ltb_spec i rows) as [Hi|Hi]; cbn [andb].
  - rewrite decide_True by exact Hi.
    destruct (rows2 a !! i) as [row|]; cbn [fmap option_fmap option_map].
    + rewrite lookup_take.
      destruct (Nat.ltb_spec j cols) as [Hj|Hj].
      * rewrite decide_True by exact Hj. reflexivity.
      * rewrite decide_False by lia. reflexivity.
    + destruct (j <? cols); reflexivity.
  - rewrite decide_False by lia. reflexivity.
Qed.
End Chunks.

(** ** Bytes and elements *)

Lemma itemsize_pos (t : np_type) : itemsize t ≠ 0.
Proof. destruct t; cbn; lia. Qed.

Lemma byte_val_range (b : byte) : (0 ≤ byte_val b < 256)%Z.
Proof. unfold byte_val. pose proof (Byte.to_N_bounded b). lia. Qed.

Lemma byte_of_Z_val (b : byte) (r : Z) : byte_of_Z (byte_val b + 256 * r) = b.
Proof.
  pose proof (byte_val_range b) as Hb. unfold byte_of_Z.
  replace ((byte_val b + 256 * r) `mod` 256)%Z with (byte_val b)
    by (Z.div_mod_to_equations; lia).
  unfold byte_val. rewrite N2Z.id, Byte.of_to_N. reflexivity.
Qed.

Lemma le_decode_range (bs : list byte) :
  (0 ≤ le_decode bs < 2 ^ (8 * Z.of_nat (length bs)))%Z.
Proof.
  induction bs as [|b bs IH]; cbn [le_decode length]; [cbn; lia|].
  pose proof (byte_val_range b).
  replace (8 * Z.of_nat (S (length bs)))%Z with (8 + 8 * Z.of_nat (length bs))%Z by lia.
  rewrite Z.pow_add_r by lia. change (2 ^ 8)%Z with 256%Z. lia.
Qed.

Lemma le_encode_decode (bs : list byte) : le_encode (length bs) (le_decode bs) = bs.
Proof.
  induction bs as [|b bs IH]; cbn [le_decode le_encode length]; [reflexivity|].
  rewrite byte_of_Z_val. f_equal.
  pose proof (byte_val_range b).
  replace ((byte_val b + 256 * le_decode bs) `div` 256)%Z with (le_decode bs)
    by (Z.div_mod_to_equations; lia).
  exact IH.
Qed.

Lemma length_to_memory_order host d bs :
  length (to_memory_order host d bs) = length bs.
Proof. unfold to_memory_order. destruct (big_endian_order _ _); [apply length_reverse|done]. Qed.

Lemma to_memory_order_involutive host d bs :
  to_memory_order host d (to_memory_order host d bs) = bs.
Proof.
  unfold to_memory_order. destruct (big_endian_order _ _); [apply reverse_involutive|done].
Qed.

(** Writing back an element that was read gives the bytes it was read
    from. *)
Lemma encode_decode_elem host d bs :
  length bs = itemsize (base_type d) →
  encode_elem host d (decode_elem host d bs) = bs.
Proof.
  intros Hlen. unfold encode_elem, decode_elem.
  pose proof (le_decode_range (to_memory_order host d bs)) as Hu.
  rewrite length_to_memory_order, Hlen in Hu.
  set (u := le_decode (to_memory_order host d bs)) in *.
  set (M := (2 ^ (8 * Z.of_nat (itemsize (base_type d))))%Z) in *.
  assert (Hmod : ((if is_signed_int (base_type d)
                      && (2 ^ (8 * Z.of_nat (itemsize (base_type d)) - 1) <=? u)%Z
                   then u - M else u) `mod` M = u)%Z).
  { destruct (_ && _).
    - replace (u - M)%Z with (u + (-1) * M)%Z by lia.
      rewrite Z_mod_plus_full. apply Z.mod_small; lia.
    - apply Z.mod_small; lia. }
  rewrite Hmod. subst u.
  rewrite <- Hlen, <- (length_to_memory_order host d bs), le_encode_decode.
  apply to_memory_order_involutive.
Qed.

(** ** Reading from the file *)

Lemma available_bytes d file start n :
  n ≤ available d file start → n ≠ 0 →
  start + n * itemsize (base_type d) ≤ length file.
Proof.
  unfold available. intros Hn Hn0.
  pose proof (itemsize_pos (base_type d)) as Hw.
  pose proof (Nat.Div0.mul_div_le (length file - start) (itemsize (base_type d))) as Hdiv.
  pose proof (Nat.mul_le_mono_l _ _ (itemsize (base_type d)) Hn) as Hmul.
  assert (0 < n * itemsize (base_type d)) by (apply Nat.mul_pos_pos; lia).
  lia.
Qed.

Lemma available_short d file start K count :
  count ≠ 0 →
  available d file start < K + count →
  (length file - (start + K * itemsize (base_type d))) `div` itemsize (base_type d) < count.
Proof.
  unfold available. intros Hcount Hlt.
  pose proof (itemsize_pos (base_type d)) as Hw.
  set (w := itemsize (base_type d)) in *.
  assert (0 < w * count) by (apply Nat.mul_pos_pos; lia).
  apply Nat.Div0.div_lt_upper_bound.
  destruct (decide (w * (K + count) ≤ length file - start)) as [Hle|Hgt].
  - pose proof (Nat.div_le_lower_bound _ _ _ Hw Hle). lia.
  - rewrite Nat.mul_add_distr_l in Hgt. rewrite (Nat.mul_comm K w). lia.
Qed.

Lemma seek_ok (offset : Z) (file : list byte) (p0 : nat) :
  (0 ≤ offset)%Z →
  seek offset {| content := file; pos := p0 |}
  = Ok ((), {| content := file; pos := Z.to_nat offset |}).
Proof. intros H. unfold seek. destruct (Z.ltb_spec offset 0); [lia|reflexivity]. Qed.

Lemma chunks_elem_at host d file start K count :
  decode_elem host d <$>
    chunks (itemsize (base_type d)) count (drop (start + K * itemsize (base_type d)) file)
  = elem_at host d file start <$> seq K count.
Proof.
  revert K; induction count as [|count IH]; intros K; cbn; [reflexivity|].
  f_equal. rewrite drop_drop.
  replace (start + K * itemsize (base_type d) + itemsize (base_type d))
    with (start + S K * itemsize (base_type d)) by lia.
  apply IH.
Qed.

Lemma np_fromfile_ok host d file start K count :
  K + count ≤ available d file start →
  np_fromfile host d count {| content := file; pos := start + K * itemsize (base_type d) |}
  = Ok (elem_at host d file start <$> seq K count,
        {| content := file; pos := start + (K + count) * itemsize (base_type d) |}).
Proof.
  intros Hlen. unfold np_fromfile. cbn [content pos].
  pose proof (itemsize_pos (base_type d)) as Hw.
  assert (Havail : count ≤ (length file - (start + K * itemsize (base_type d)))
                           `div` itemsize (base_type d)).
  { destruct (decide (count = 0)) as [->|Hc]; [lia|].
    pose proof (available_bytes d file start (K + count) Hlen ltac:(lia)).
    apply Nat.div_le_lower_bound; lia. }
  rewrite Nat.min_l by exact Havail.
  rewrite chunks_elem_at. do 3 f_equal. lia.
Qed.

Lemma np_fromfile_short host d file start K count :
  count ≠ 0 →
  available d file start < K + count →
  ∃ flat st,
    np_fromfile host d count {| content := file; pos := start + K * itemsize (base_type d) |}
    = Ok (flat, st) ∧ length flat < count.
Proof.
  intros Hcount Hlt. apply available_short in Hlt; [|exact Hcount].
  unfold np_fromfile. cbn [content pos].
  eexists _, _. split; [reflexivity|].
  rewrite length_fmap, length_chunks. lia.
Qed.

Lemma tobytes_elems host d file start K count :
  K + count ≤ available d file start →
  tobytes host d (elem_at host d file start <$> seq K count)
  = take (count * itemsize (base_type d)) (drop (start + K * itemsize (base_type d)) file).
Proof.
  unfold tobytes.
  revert K; induction count as [|count IH]; intros K Hlen; cbn [seq fmap list_fmap concat].
  - reflexivity.
  - rewrite IH by lia.
    pose proof (available_bytes d file start (S K) ltac:(lia) ltac:(lia)).
    unfold elem_at at 1. rewrite encode_decode_elem
      by (rewrite length_take, length_drop; lia).
    replace (drop (start + S K * itemsize (base_type d)) file)
      with (drop (itemsize (base_type d)) (drop (start + K * itemsize (base_type d)) file))
      by (rewrite drop_drop; f_equal; lia).
    apply take_take_drop.
Qed.

(** ** The band-sequential decoder *)

Lemma band_sequential_run host PT BO (self : Label) file start d :
  dtype PT BO self = Ok d →
  size self ≤ available d file start →
  _parse_band_sequential_data host PT BO self {| content := file; pos := start |}
  = Ok ({| nd_dtype := d; nd_shape := shape self;
           nd_items := unflatten3 (shape self)
                         (elem_at host d file start <$> seq 0 (size self)) |},
        {| content := file; pos := start + size self * itemsize (base_type d) |}).
Proof.
  intros Hd Hlen. unfold _parse_band_sequential_data.
  unfold mbind, io_bind. rewrite Hd. cbn [lift].
  pose proof (np_fromfile_ok host d file start 0 (size self)) as Hread.
  cbn [Nat.mul Nat.add] in Hread. rewrite Nat.add_0_r in Hread.
  rewrite Hread by exact Hlen.
  unfold reshape3. rewrite decide_True; [reflexivity|].
  rewrite length_fmap, length_seq. reflexivity.
Qed.

Lemma band_sequential_short host PT BO (self : Label) file start d :
  dtype PT BO self = Ok d →
  available d file start < size self →
  _parse_band_sequential_data host PT BO self {| content := file; pos := start |}
  = Raise (ValueError ReshapeSize).
Proof.
  intros Hd Hlt. unfold _parse_band_sequential_data.
  unfold mbind, io_bind. rewrite Hd. cbn [lift].
  destruct (np_fromfile_short host d file start 0 (size self)) as (flat & st & Hread & Hflat);
    [lia|lia|].
  cbn [Nat.mul Nat.add] in Hread. rewrite Nat.add_0_r in Hread. rewrite Hread.
  unfold reshape3. rewrite decide_False; [reflexivity|].
  unfold size_of, shape. unfold size in Hflat. lia.
Qed.

Lemma parse_data_band_sequential host PT BO junk (self : Label) file p0 :
  format self = "BandSequential" →
  (1 ≤ StartByte self)%Z →
  _parse_data host PT BO junk self {| content := file; pos := p0 |}
  = _parse_band_sequential_data host PT BO self
      {| content := file; pos := Z.to_nat (start_byte self) |}.
Proof.
  intros Hfmt Hstart. unfold _parse_data. unfold mbind at 1, io_bind at 1.
  rewrite seek_ok by (unfold start_byte; lia).
  rewrite decide_True by exact Hfmt. reflexivity.
Qed.

(** C2, evaluated. A program that imports the reader and constructs
    the cube of two bands of one line of two big-endian words stops at
    the import with [NameError] for [np], so nothing is decoded.  The
    decoder itself does what the claim says as soon as the tables are
    bound: with the tables the displays denote once [np] names NumPy,
    for a band-sequential cube whose file holds the
    [bands * lines * samples] elements, [_parse_data] seeks to the start
    byte of the label minus one, reads exactly that many elements of the
    resolved type and byte order, and returns an array of shape
    [(bands, lines, samples)] whose cell [(band, line, sample)] is the
    element at position [band * (lines * samples) + line * samples +
    sample] of the run. *)
Theorem band_sequential_decode_stops_at_import :
  (∀ (host_big_endian : bool) (junk : nat → Z),
     import_and_construct host_big_endian junk (λ _, Ok sequential_label) sequential_file
     = Raise (NameError "np"))
  ∧
  ∀ (PIXEL_TYPES : gmap string Dtype) (BYTE_ORDERS : gmap string byteorder),
    tables_with_np = Ok (PIXEL_TYPES, BYTE_ORDERS) →
    ∀ (host_big_endian : bool) (junk : nat → Z) (self : Label) (file : list byte)
      (p0 : nat) (d : Dtype),
      format self = "BandSequential" →
      dtype PIXEL_TYPES BYTE_ORDERS self = Ok d →
      (1 ≤ StartByte self)%Z →
      size self ≤ available d file (Z.to_nat (start_byte self)) →
      ∃ items,
        _parse_data host_big_endian PIXEL_TYPES BYTE_ORDERS junk self
          {| content := file; pos := p0 |}
        = Ok ({| nd_dtype := d; nd_shape := shape self; nd_items := items |},
              {| content := file;
                 pos := Z.to_nat (start_byte self) + size self * itemsize (base_type d) |})
        ∧ Z.of_nat (Z.to_nat (start_byte self)) = (StartByte self - 1)%Z
        ∧ (∀ band line sample,
             is_Some (get3 items band line sample)
             ↔ band < bands self ∧ line < lines self ∧ sample < samples self)
        ∧ ∀ band line sample,
            band < bands self → line < lines self → sample < samples self →
            get3 items band line sample
            = Some (elem_at host_big_endian d file (Z.to_nat (start_byte self))
                      (band * (lines self * samples self) + line * samples self + sample)).
Proof.
  split; [intros host junk; apply import_and_construct_raises|].
  intros PT BO _ host junk self file p0 d Hfmt Hd Hstart Hlen.
  assert (Hcell : ∀ b l s, b < bands self → l < lines self → s < samples self →
            get3 (unflatten3 (shape self)
                    (elem_at host d file (Z.to_nat (start_byte self)) <$> seq 0 (size self)))
              b l s
            = Some (elem_at host d file (Z.to_nat (start_byte self))
                      (b * (lines self * samples self) + l * samples self + s))).
  { intros b l s Hb Hl Hs. unfold shape.
    rewrite get3_unflatten3 by assumption.
    rewrite list_lookup_fmap, lookup_seq_lt; [reflexivity|].
    unfold size. apply flat_index_bound3; assumption. }
  eexists. split; [|split; [|split]].
  - rewrite parse_data_band_sequential by assumption.
    apply band_sequential_run; assumption.
  - unfold start_byte. lia.
  - intros b l s. split.
    + intros Hsome.
      destruct (decide (b < bands self ∧ l < lines self ∧ s < samples self)) as [|Hn];
        [assumption|].
      unfold shape in Hsome. rewrite get3_unflatten3_outside in Hsome by lia.
      by destruct Hsome.
    + intros (Hb & Hl & Hs). rewrite Hcell by assumption. eauto.
  - exact Hcell.
Qed.

(** Two bands of one line of two samples, with the tables bound: the
    last cell is the fourth element of the run, [0x8000] read as a signed
    big-endian word. *)
Lemma band_sequential_decode_stops_at_import_witness :
  ∃ PIXEL_TYPES BYTE_ORDERS a st,
    tables_with_np = Ok (PIXEL_TYPES, BYTE_ORDERS)
    ∧ _parse_data false PIXEL_TYPES BYTE_ORDERS (λ _, 0%Z)
        sequential_label {| content := sequential_file; pos := 0 |} = Ok (a, st)
    ∧ get3 (nd_items a) 1 0 1 = Some (-32768)%Z.
Proof.
  exists pixel_types_with_np, constants.BYTE_ORDERS.
  destruct (proj2 band_sequential_decode_stops_at_import
              pixel_types_with_np constants.BYTE_ORDERS tables_with_np_eq false (λ _, 0%Z)
              sequential_label sequential_file 0
              {| base_type := int16; order := BigEndian |}
              eq_refl ltac:(vm_compute; reflexivity)
              ltac:(cbn; lia) ltac:(vm_compute; lia))
    as (items & Hrun & _ & _ & Hcell).
  eexists _, _. split; [exact tables_with_np_eq|]. split; [exact Hrun|].
  cbn [nd_items]. rewrite (Hcell 1 0 1) by (cbn; lia).
  vm_compute. reflexivity.
Defined.

(** C8, evaluated. The same program stops at the import with
    [NameError] for [np], so there is no buffer to write back.  With the
    tables the displays denote once [np] names NumPy, for a
    band-sequential cube whose file holds the [bands * lines * samples]
    elements, writing the decoded buffer back with the element type and
    byte order it was read with gives the bytes of the data region. *)
Theorem band_sequential_round_trip_stops_at_import :
  (∀ (host_big_endian : bool) (junk : nat → Z),
     import_and_construct host_big_endian junk (λ _, Ok sequential_label) sequential_file
     = Raise (NameError "np"))
  ∧
  ∀ (PIXEL_TYPES : gmap string Dtype) (BYTE_ORDERS : gmap string byteorder),
    tables_with_np = Ok (PIXEL_TYPES, BYTE_ORDERS) →
    ∀ (host_big_endian : bool) (junk : nat → Z) (self : Label) (file : list byte)
      (p0 : nat) (d : Dtype),
      format self = "BandSequential" →
      dtype PIXEL_TYPES BYTE_ORDERS self = Ok d →
      (1 ≤ StartByte self)%Z →
      size self ≤ available d file (Z.to_nat (start_byte self)) →
      ∃ a st,
        _parse_data host_big_endian PIXEL_TYPES BYTE_ORDERS junk self
          {| content := file; pos := p0 |} = Ok (a, st)
        ∧ nd_dtype a = d
        ∧ tobytes host_big_endian (nd_dtype a) (flatten3 (nd_items a))
          = take (size self * itemsize (base_type d))
              (drop (Z.to_nat (start_byte self)) file).
Proof.
  split; [intros host junk; apply import_and_construct_raises|].
  intros PT BO _ host junk self file p0 d Hfmt Hd Hstart Hlen.
  eexists _, _. split; [|split].
  - rewrite parse_data_band_sequential by assumption.
    apply band_sequential_run; eassumption.
  - reflexivity.
  - cbn [nd_dtype nd_items]. unfold shape.
    rewrite flatten3_unflatten3 by (rewrite length_fmap, length_seq; reflexivity).
    pose proof (tobytes_elems host d file (Z.to_nat (start_byte self)) 0 (size self)) as H.
    cbn [Nat.mul Nat.add] in H. rewrite Nat.add_0_r in H. apply H. exact Hlen.
Qed.

(** With the tables bound, the eight bytes after the two-byte header
    come back. *)
Lemma band_sequential_round_trip_stops_at_import_witness :
  ∃ PIXEL_TYPES BYTE_ORDERS a st,
    tables_with_np = Ok (PIXEL_TYPES, BYTE_ORDERS)
    ∧ _parse_data false PIXEL_TYPES BYTE_ORDERS (λ _, 0%Z)
        sequential_label {| content := sequential_file; pos := 0 |} = Ok (a, st)
    ∧ tobytes false (nd_dtype a) (flatten3 (nd_items a))
      = [ x00; x01; xff; xfe; x7f; xff; x80; x00 ].
Proof.
  exists pixel_types_with_np, constants.BYTE_ORDERS.
  destruct (proj2 band_sequential_round_trip_stops_at_import
              pixel_types_with_np constants.BYTE_ORDERS tables_with_np_eq false (λ _, 0%Z)
              sequential_label sequential_file 0
              {| base_type := int16; order := BigEndian |}
              eq_refl ltac:(vm_compute; reflexivity)
              ltac:(cbn; lia) ltac:(vm_compute; lia))
    as (a & st & Hrun & _ & Hbytes).
  exists a, st. split; [exact tables_with_np_eq|]. split; [exact Hrun|].
  rewrite Hbytes. reflexivity.
Defined.

(** ** The tiled decoder *)

Lemma writes_nothing band : writes band band (λ _ _, None).
Proof. intros l s. destruct (get2 band l s); reflexivity. Qed.

Lemma writes_compose b0 b1 b2 W1 W2 :
  writes b0 b1 W1 → writes b1 b2 W2 → writes b0 b2 (override W2 W1).
Proof.
  intros H1 H2 l s. rewrite H2, H1. unfold override.
  destruct (get2 b0 l s) as [x|]; cbn; [|reflexivity].
  destruct (W2 l s), (W1 l s); reflexivity.
Qed.

Lemma writes_is_Some band band' W l s :
  writes band band' W → is_Some (get2 band' l s) ↔ is_Some (get2 band l s).
Proof. intros H. rewrite H. apply fmap_is_Some. Qed.

Lemma py_range_ok stop step :
  step ≠ 0 → py_range stop step = Ok ((λ i, i * step) <$> seq 0 (tile_count stop step)).
Proof. intros H. unfold py_range, tile_count. destruct step; [lia|reflexivity]. Qed.

Lemma tile_count_gt len step i r : step ≠ 0 → i * step + r < len → i < tile_count len step.
Proof.
  intros Hstep Hlt. unfold tile_count.
  enough (S i ≤ (len + step - 1) `div` step) by lia.
  apply Nat.div_le_lower_bound; [exact Hstep|]. lia.
Qed.

Lemma assign_block_fits {A} (band : list (list A)) line sample r c (src : array2 A) :
  shape2 src = (r, c) →
  assign_block band line sample (r, c) src
  = Ok (imap (λ l row,
          imap (λ s x,
            if (line <=? l) && (l <? line + r) && (sample <=? s) && (s <? sample + c)
            then default x (get2 (rows2 src) (l - line) (s - sample))
            else x) row) band).
Proof.
  intros Hshape. unfold assign_block. rewrite Hshape.
  unfold broadcasts, source_index.
  rewrite (bool_decide_true (r = r)), (bool_decide_true (c = c)) by reflexivity.
  reflexivity.
Qed.

(** A source taller or wider than the view it is assigned to, and of
    more than one row or column, is refused. *)
Lemma assign_block_too_large {A} (band : list (list A)) line sample r c (src : array2 A) :
  (r < (shape2 src).1 ∧ (shape2 src).1 ≠ 1) ∨ (c < (shape2 src).2 ∧ (shape2 src).2 ≠ 1) →
  assign_block band line sample (r, c) src = Raise (ValueError Broadcast).
Proof.
  intros H. unfold assign_block. destruct (shape2 src) as [n m]. cbn [fst snd] in H.
  unfold broadcasts.
  destruct H as [[Hlt Hne]|[Hlt Hne]].
  - rewrite (bool_decide_false (n = r)) by lia.
    rewrite (bool_decide_false (n = 1)) by exact Hne. reflexivity.
  - rewrite (bool_decide_false (m = c)) by lia.
    rewrite (bool_decide_false (m = 1)) by exact Hne.
    rewrite andb_false_r. reflexivity.
Qed.

Section TileLoops.
Variables (host : bool) (self : Label) (d : Dtype) (file : list byte) (start : nat).
Variables (tl ts : nat).

#[local] Abbreviation w := (itemsize (base_type d)).
#[local] Abbreviation value := (elem_at host d file start).
#[local] Abbreviation at_elem K := {| content := file; pos := start + K * w |}.
#[local] Abbreviation avail := (available d file start).

(** One tile: a full run of [tl * ts] elements is read, and the part of
    it that falls inside the image is stored. *)
Lemma read_tile_writes line sample K band :
  K + tl * ts ≤ avail →
  ∃ band',
    read_tile host self d tl ts line sample band (at_elem K)
    = Ok (band', at_elem (K + tl * ts))
    ∧ writes band band'
        (tile_writes value (lines self) (samples self) tl ts line sample K).
Proof.
  intros Hlen.
  set (cl := slice_len line (line + tl) (lines self)).
  set (cs := slice_len sample (sample + ts) (samples self)).
  assert (Hcl : cl ≤ tl) by (unfold cl, slice_len; lia).
  assert (Hcs : cs ≤ ts) by (unfold cs, slice_len; lia).
  eexists. split.
  - unfold read_tile. unfold mbind, io_bind.
    rewrite np_fromfile_ok by exact Hlen.
    unfold reshape2. rewrite decide_True by (rewrite length_fmap, length_seq; reflexivity).
    cbn [lift]. fold cl cs.
    rewrite assign_block_fits
      by (unfold crop; cbn [shape2 fst snd]; f_equal; lia).
    reflexivity.
  - intros l s. rewrite get2_imap.
    destruct (get2 band l s) as [x|]; cbn [fmap option_fmap option_map]; [|reflexivity].
    f_equal. unfold tile_writes. fold cl cs.
    destruct ((line <=? l) && (l <? line + cl) && (sample <=? s) && (s <? sample + cs))
      eqn:Hin; [|reflexivity].
    apply andb_prop in Hin. destruct Hin as [Hin Hs2].
    apply andb_prop in Hin. destruct Hin as [Hin Hs1].
    apply andb_prop in Hin. destruct Hin as [Hl1 Hl2].
    apply Nat.leb_le in Hl1, Hs1. apply Nat.ltb_lt in Hl2, Hs2.
    rewrite get2_crop. cbn [rows2].
    rewrite (proj2 (Nat.ltb_lt (l - line) cl)) by lia.
    rewrite (proj2 (Nat.ltb_lt (s - sample) cs)) by lia.
    cbn [andb].
    rewrite get2_chunks by lia.
    rewrite list_lookup_fmap, lookup_seq_lt by (apply flat_index_bound; lia).
    cbn [fmap option_fmap option_map default from_option]. unfold id.
    f_equal. lia.
Qed.

Lemma read_tile_short line sample K band :
  tl * ts ≠ 0 →
  avail < K + tl * ts →
  read_tile host self d tl ts line sample band (at_elem K) = Raise (ValueError ReshapeSize).
Proof.
  intros Hsize Hlt. unfold read_tile. unfold mbind, io_bind.
  destruct (np_fromfile_short host d file start K (tl * ts) Hsize Hlt)
    as (flat & st & Hread & Hflat).
  rewrite Hread. unfold reshape2. rewrite decide_False by lia. reflexivity.
Qed.

Lemma row_loop line n : ∀ a K band,
  K + n * (tl * ts) ≤ avail →
  ∃ band',
    for_each ((λ i, i * ts) <$> seq a n)
      (λ sample band, read_tile host self d tl ts line sample band) band (at_elem K)
    = Ok (band', at_elem (K + n * (tl * ts)))
    ∧ writes band band' (row_writes value (lines self) (samples self) tl ts line a n K).
Proof.
  induction n as [|n IH]; intros a K band Hlen.
  - exists band. split; [|apply writes_nothing].
    cbn. rewrite Nat.add_0_r. reflexivity.
  - cbn [seq fmap list_fmap for_each].
    destruct (read_tile_writes line (a * ts) K band) as (band1 & Hrun1 & Hw1); [lia|].
    destruct (IH (S a) (K + tl * ts) band1) as (band' & Hrun & Hw); [lia|].
    exists band'. split.
    + unfold mbind, io_bind. rewrite Hrun1.
      change (list_fmap nat nat (λ i, i * ts)) with (fmap (M:=list) (λ i, i * ts)).
      rewrite Hrun.
      replace (K + tl * ts + n * (tl * ts)) with (K + S n * (tl * ts)) by lia.
      reflexivity.
    + cbn [row_writes]. exact (writes_compose _ _ _ _ _ Hw1 Hw).
Qed.

Lemma row_loop_short line n : ∀ a K band,
  tl * ts ≠ 0 →
  K ≤ avail →
  avail < K + n * (tl * ts) →
  for_each ((λ i, i * ts) <$> seq a n)
    (λ sample band, read_tile host self d tl ts line sample band) band (at_elem K)
  = Raise (ValueError ReshapeSize).
Proof.
  induction n as [|n IH]; intros a K band Hsize HK Hlt; [lia|].
  cbn [seq fmap list_fmap for_each]. unfold mbind, io_bind.
  destruct (decide (K + tl * ts ≤ avail)) as [Hle|Hgt].
  - destruct (read_tile_writes line (a * ts) K band Hle) as (band1 & -> & _).
    change (list_fmap nat nat (λ i, i * ts)) with (fmap (M:=list) (λ i, i * ts)).
    apply IH; [assumption|lia|lia].
  - rewrite read_tile_short by lia. reflexivity.
Qed.

Lemma band_loop nc m : ∀ a K band,
  K + m * (nc * (tl * ts)) ≤ avail →
  ∃ band',
    for_each ((λ i, i * tl) <$> seq a m)
      (λ line band,
         for_each ((λ i, i * ts) <$> seq 0 nc)
           (λ sample band, read_tile host self d tl ts line sample band) band)
      band (at_elem K)
    = Ok (band', at_elem (K + m * (nc * (tl * ts))))
    ∧ writes band band' (band_writes value (lines self) (samples self) tl ts nc a m K).
Proof.
  induction m as [|m IH]; intros a K band Hlen.
  - exists band. split; [|apply writes_nothing].
    cbn. rewrite Nat.add_0_r. reflexivity.
  - cbn [seq fmap list_fmap for_each].
    destruct (row_loop (a * tl) nc 0 K band) as (band1 & Hrun1 & Hw1); [lia|].
    destruct (IH (S a) (K + nc * (tl * ts)) band1) as (band' & Hrun & Hw); [lia|].
    exists band'. split.
    + unfold mbind at 1, io_bind at 1. rewrite Hrun1.
      change (list_fmap nat nat (λ i, i * tl)) with (fmap (M:=list) (λ i, i * tl)).
      rewrite Hrun.
      replace (K + nc * (tl * ts) + m * (nc * (tl * ts)))
        with (K + S m * (nc * (tl * ts))) by lia.
      reflexivity.
    + cbn [band_writes]. exact (writes_compose _ _ _ _ _ Hw1 Hw).
Qed.

Lemma band_loop_short nc m : ∀ a K band,
  tl * ts ≠ 0 →
  K ≤ avail →
  avail < K + m * (nc * (tl * ts)) →
  for_each ((λ i, i * tl) <$> seq a m)
    (λ line band,
       for_each ((λ i, i * ts) <$> seq 0 nc)
         (λ sample band, read_tile host self d tl ts line sample band) band)
    band (at_elem K)
  = Raise (ValueError ReshapeSize).
Proof.
  induction m as [|m IH]; intros a K band Hsize HK Hlt; [lia|].
  cbn [seq fmap list_fmap for_each]. unfold mbind at 1, io_bind at 1.
  destruct (decide (K + nc * (tl * ts) ≤ avail)) as [Hle|Hgt].
  - destruct (row_loop (a * tl) nc 0 K band Hle) as (band1 & -> & _).
    change (list_fmap nat nat (λ i, i * tl)) with (fmap (M:=list) (λ i, i * tl)).
    apply IH; [assumption|lia|lia].
  - rewrite row_loop_short by (assumption || lia). reflexivity.
Qed.

Lemma bands_loop nr nc planes : ∀ K,
  K + length planes * (nr * (nc * (tl * ts))) ≤ avail →
  ∃ planes',
    for_bands
      (λ band,
         for_each ((λ i, i * tl) <$> seq 0 nr)
           (λ line band,
              for_each ((λ i, i * ts) <$> seq 0 nc)
                (λ sample band, read_tile host self d tl ts line sample band) band)
           band)
      planes (at_elem K)
    = Ok (planes', at_elem (K + length planes * (nr * (nc * (tl * ts)))))
    ∧ length planes' = length planes
    ∧ ∀ b plane, planes !! b = Some plane →
        ∃ plane', planes' !! b = Some plane'
          ∧ writes plane plane'
              (band_writes value (lines self) (samples self) tl ts nc 0 nr
                 (K + b * (nr * (nc * (tl * ts))))).
Proof.
  induction planes as [|plane planes IH]; intros K Hlen.
  - exists []. split; [|split; [reflexivity|intros b plane Hb; discriminate]].
    cbn. rewrite Nat.add_0_r. reflexivity.
  - cbn [length] in Hlen. cbn [for_bands].
    destruct (band_loop nc nr 0 K plane) as (plane' & Hrun1 & Hw1); [lia|].
    destruct (IH (K + nr * (nc * (tl * ts)))) as (planes' & Hrun & Hlen' & Hw); [lia|].
    exists (plane' :: planes'). split; [|split; [cbn [length]; lia|]].
    + unfold mbind at 1, io_bind at 1. rewrite Hrun1.
      unfold mbind at 1, io_bind at 1. rewrite Hrun.
      cbn [length].
      replace (K + S (length planes) * (nr * (nc * (tl * ts))))
        with (K + nr * (nc * (tl * ts)) + length planes * (nr * (nc * (tl * ts)))) by lia.
      reflexivity.
    + intros [|b] p Hp; cbn in Hp.
      * injection Hp as <-. exists plane'. split; [reflexivity|].
        cbn [Nat.mul]. rewrite Nat.add_0_r. exact Hw1.
      * destruct (Hw b p Hp) as (p' & Hp' & Hwp). exists p'. split; [exact Hp'|].
        replace (K + S b * (nr * (nc * (tl * ts))))
          with (K + nr * (nc * (tl * ts)) + b * (nr * (nc * (tl * ts)))) by lia.
        exact Hwp.
Qed.

Lemma bands_loop_short nr nc planes : ∀ K,
  tl * ts ≠ 0 →
  K ≤ avail →
  avail < K + length planes * (nr * (nc * (tl * ts))) →
  for_bands
    (λ band,
       for_each ((λ i, i * tl) <$> seq 0 nr)
         (λ line band,
            for_each ((λ i, i * ts) <$> seq 0 nc)
              (λ sample band, read_tile host self d tl ts line sample band) band)
         band)
    planes (at_elem K)
  = Raise (ValueError ReshapeSize).
Proof.
  induction planes as [|plane planes IH]; intros K Hsize HK Hlt; [cbn in Hlt; lia|].
  cbn [length] in Hlt. cbn [for_bands]. unfold mbind at 1, io_bind at 1.
  destruct (decide (K + nr * (nc * (tl * ts)) ≤ avail)) as [Hle|Hgt].
  - destruct (band_loop nc nr 0 K plane Hle) as (plane' & -> & _).
    unfold mbind at 1, io_bind at 1. rewrite IH by (assumption || lia). reflexivity.
  - rewrite band_loop_short by (assumption || lia). reflexivity.
Qed.
End TileLoops.

Section WritesAt.
Variable value : nat → Z.
Variables nl ns tl ts : nat.

Lemma tile_writes_hit line sample K i j :
  i < tl → j < ts → line + i < nl → sample + j < ns →
  tile_writes value nl ns tl ts line sample K (line + i) (sample + j)
  = Some (value (K + i * ts + j)).
Proof.
  intros Hi Hj Hl Hs. unfold tile_writes, slice_len.
  rewrite (proj2 (Nat.leb_le _ _)) by lia.
  rewrite (proj2 (Nat.ltb_lt _ _)) by lia.
  rewrite (proj2 (Nat.leb_le _ _)) by lia.
  rewrite (proj2 (Nat.ltb_lt _ _)) by lia.
  cbn [andb]. do 2 f_equal. f_equal; [f_equal|]; lia.
Qed.

Lemma tile_writes_miss line sample K l s :
  l < line ∨ line + tl ≤ l ∨ s < sample ∨ sample + ts ≤ s →
  tile_writes value nl ns tl ts line sample K l s = None.
Proof.
  intros H. unfold tile_writes, slice_len.
  destruct (Nat.leb_spec line l),
    (Nat.ltb_spec l (line + (((line + tl) `min` nl) - line `min` nl))),
    (Nat.leb_spec sample s),
    (Nat.ltb_spec s (sample + (((sample + ts) `min` ns) - sample `min` ns)));
    cbn [andb]; try reflexivity; lia.
Qed.

Lemma row_writes_miss line n : ∀ a K l s,
  l < line ∨ line + tl ≤ l ∨ s < a * ts →
  row_writes value nl ns tl ts line a n K l s = None.
Proof.
  induction n as [|n IH]; intros a K l s H; cbn [row_writes]; [reflexivity|].
  unfold override. rewrite IH by lia. apply tile_writes_miss. lia.
Qed.

Lemma row_writes_hit line n : ∀ a K t i j,
  t < n → i < tl → j < ts → line + i < nl → (a + t) * ts + j < ns →
  row_writes value nl ns tl ts line a n K (line + i) ((a + t) * ts + j)
  = Some (value (K + t * (tl * ts) + i * ts + j)).
Proof.
  induction n as [|n IH]; intros a K t i j Ht Hi Hj Hl Hs; [lia|].
  cbn [row_writes]. unfold override. destruct t as [|t].
  - rewrite row_writes_miss by lia.
    rewrite Nat.add_0_r in *. rewrite tile_writes_hit by lia.
    do 2 f_equal. lia.
  - replace ((a + S t) * ts + j) with ((S a + t) * ts + j) in * by lia.
    rewrite IH by lia. do 2 f_equal. lia.
Qed.

Lemma band_writes_miss nc m : ∀ a K l s,
  l < a * tl → band_writes value nl ns tl ts nc a m K l s = None.
Proof.
  induction m as [|m IH]; intros a K l s H; cbn [band_writes]; [reflexivity|].
  unfold override. rewrite IH by lia. apply row_writes_miss. lia.
Qed.

Lemma band_writes_hit nc m : ∀ a K u t i j,
  u < m → t < nc → i < tl → j < ts → (a + u) * tl + i < nl → t * ts + j < ns →
  band_writes value nl ns tl ts nc a m K ((a + u) * tl + i) (t * ts + j)
  = Some (value (K + u * (nc * (tl * ts)) + t * (tl * ts) + i * ts + j)).
Proof.
  induction m as [|m IH]; intros a K u t i j Hu Ht Hi Hj Hl Hs; [lia|].
  cbn [band_writes]. unfold override. destruct u as [|u].
  - rewrite band_writes_miss by lia.
    rewrite Nat.add_0_r in *.
    pose proof (row_writes_hit (a * tl) nc 0 K t i j Ht Hi Hj Hl) as Hrow.
    cbn [Nat.add] in Hrow. rewrite Hrow by exact Hs. do 2 f_equal. lia.
  - replace ((a + S u) * tl + i) with ((S a + u) * tl + i) in * by lia.
    rewrite IH by lia. do 2 f_equal. lia.
Qed.
End WritesAt.

Lemma parse_data_tile host PT BO junk (self : Label) file p0 :
  format self = "Tile" →
  (1 ≤ StartByte self)%Z →
  _parse_data host PT BO junk self {| content := file; pos := p0 |}
  = _parse_tile_data host PT BO junk self
      {| content := file; pos := Z.to_nat (start_byte self) |}.
Proof.
  intros Hfmt Hstart. unfold _parse_data. unfold mbind at 1, io_bind at 1.
  rewrite seek_ok by (unfold start_byte; lia).
  rewrite decide_False by (rewrite Hfmt; discriminate).
  rewrite decide_True by exact Hfmt. reflexivity.
Qed.

Lemma tile_data_loops host PT BO junk (self : Label) d st :
  format self = "Tile" →
  dtype PT BO self = Ok d →
  TileLines self ≠ 0 → TileSamples self ≠ 0 →
  _parse_tile_data host PT BO junk self st
  = match
      for_bands
        (λ band,
           for_each ((λ i, i * TileLines self)
                       <$> seq 0 (tile_count (lines self) (TileLines self)))
             (λ line band,
                for_each ((λ i, i * TileSamples self)
                            <$> seq 0 (tile_count (samples self) (TileSamples self)))
                  (λ sample band,
                     read_tile host self d (TileLines self) (TileSamples self)
                       line sample band) band)
             band)
        (np_empty junk (shape self)) st
    with
    | Ok (items, st') =>
        Ok ({| nd_dtype := d; nd_shape := shape self; nd_items := items |}, st')
    | Raise e => Raise e
    end.
Proof.
  intros Hfmt Hd Htl Hts.
  unfold _parse_tile_data, tile_lines, tile_samples.
  rewrite !decide_False by (intros H; apply H; exact Hfmt).
  cbn [from_option]. unfold mbind, io_bind. cbn [lift].
  rewrite !py_range_ok by assumption. rewrite Hd. cbn [lift].
  reflexivity.
Qed.

Lemma tile_run host PT BO junk (self : Label) file start d :
  format self = "Tile" →
  dtype PT BO self = Ok d →
  TileLines self ≠ 0 → TileSamples self ≠ 0 →
  required_elements self ≤ available d file start →
  ∃ items,
    _parse_tile_data host PT BO junk self {| content := file; pos := start |}
    = Ok ({| nd_dtype := d; nd_shape := shape self; nd_items := items |},
          {| content := file;
             pos := start + required_elements self * itemsize (base_type d) |})
    ∧ length items = bands self
    ∧ ∀ b plane, np_empty junk (shape self) !! b = Some plane →
        ∃ plane', items !! b = Some plane'
          ∧ writes plane plane'
              (band_writes (elem_at host d file start) (lines self) (samples self)
                 (TileLines self) (TileSamples self)
                 (tile_count (samples self) (TileSamples self)) 0
                 (tile_count (lines self) (TileLines self))
                 (b * (tile_count (lines self) (TileLines self)
                         * (tile_count (samples self) (TileSamples self)
                            * (TileLines self * TileSamples self))))).
Proof.
  intros Hfmt Hd Htl Hts Hlen.
  unfold required_elements in *. rewrite decide_True in * by exact Hfmt.
  set (nr := tile_count (lines self) (TileLines self)) in *.
  set (nc := tile_count (samples self) (TileSamples self)) in *.
  assert (Hplanes : length (np_empty junk (shape self)) = bands self)
    by apply length_unflatten3.
  destruct (bands_loop host self d file start (TileLines self) (TileSamples self)
              nr nc (np_empty junk (shape self)) 0)
    as (items & Hrun & Hlen' & Hw).
  { rewrite Hplanes. exact Hlen. }
  exists items. split; [|split].
  - rewrite (tile_data_loops host PT BO junk self d) by assumption.
    cbn [Nat.mul Nat.add] in Hrun. rewrite Nat.add_0_r in Hrun.
    fold nr nc. rewrite Hrun, Hplanes. reflexivity.
  - rewrite Hlen'. exact Hplanes.
  - intros b plane Hb. destruct (Hw b plane Hb) as (plane' & Hp & Hwp).
    exists plane'. split; [exact Hp|exact Hwp].
Qed.

Lemma tile_short host PT BO junk (self : Label) file start d :
  format self = "Tile" →
  dtype PT BO self = Ok d →
  TileLines self ≠ 0 → TileSamples self ≠ 0 →
  available d file start < required_elements self →
  _parse_tile_data host PT BO junk self {| content := file; pos := start |}
  = Raise (ValueError ReshapeSize).
Proof.
  intros Hfmt Hd Htl Hts Hlt.
  unfold required_elements in *. rewrite decide_True in * by exact Hfmt.
  rewrite (tile_data_loops host PT BO junk self d) by assumption.
  pose proof (bands_loop_short host self d file start (TileLines self) (TileSamples self)
                (tile_count (lines self) (TileLines self))
                (tile_count (samples self) (TileSamples self))
                (np_empty junk (shape self)) 0) as Hshort.
  cbn [Nat.mul Nat.add] in Hshort. rewrite Nat.add_0_r in Hshort.
  rewrite Hshort; [reflexivity| |lia|].
  - intros H. apply Nat.eq_mul_0 in H. lia.
  - unfold np_empty, shape. rewrite length_unflatten3. exact Hlt.
Qed.

(** C1, evaluated. A program that imports the reader and constructs
    the cube of three lines of three samples in tiles of two by two
    stops at the import with [NameError] for [np], so no tile is read.
    The decoder itself does what the claim says as soon as the tables
    are bound: with the tables the displays denote once [np] names
    NumPy, for a tiled cube whose file holds every tile in full,
    [_parse_data] reads [bands * tile rows * tile columns] runs of
    [tile_lines * tile_samples] elements, edge tiles included, band
    outermost and tile column innermost, and returns an array of shape
    [(bands, lines, samples)] in which cell [(i, j)] of tile
    [(tr, tc)] of a band lands at line [tr * tile_lines + i] and sample
    [tc * tile_samples + j] whenever that position is inside the image;
    the remaining cells of an edge tile appear nowhere. *)
Theorem tile_decode_stops_at_import :
  (∀ (host_big_endian : bool) (junk : nat → Z),
     import_and_construct host_big_endian junk (λ _, Ok tiled_label) tiled_file
     = Raise (NameError "np"))
  ∧
  ∀ (PIXEL_TYPES : gmap string Dtype) (BYTE_ORDERS : gmap string byteorder),
    tables_with_np = Ok (PIXEL_TYPES, BYTE_ORDERS) →
    ∀ (host_big_endian : bool) (junk : nat → Z) (self : Label) (file : list byte)
      (p0 : nat) (d : Dtype),
      format self = "Tile" →
      dtype PIXEL_TYPES BYTE_ORDERS self = Ok d →
      (1 ≤ StartByte self)%Z →
      TileLines self ≠ 0 →
      TileSamples self ≠ 0 →
      let tl := TileLines self in
      let ts := TileSamples self in
      let nr := tile_count (lines self) tl in
      let nc := tile_count (samples self) ts in
      let start := Z.to_nat (start_byte self) in
      bands self * (nr * (nc * (tl * ts))) ≤ available d file start →
      ∃ items,
        _parse_data host_big_endian PIXEL_TYPES BYTE_ORDERS junk self
          {| content := file; pos := p0 |}
        = Ok ({| nd_dtype := d; nd_shape := shape self; nd_items := items |},
              {| content := file;
                 pos := start + (bands self * (nr * (nc * (tl * ts))))
                                * itemsize (base_type d) |})
        ∧ (∀ band line sample,
             is_Some (get3 items band line sample)
             ↔ band < bands self ∧ line < lines self ∧ sample < samples self)
        ∧ (∀ band tr tc i j,
             band < bands self → i < tl → j < ts →
             tr * tl + i < lines self → tc * ts + j < samples self →
             get3 items band (tr * tl + i) (tc * ts + j)
             = Some (elem_at host_big_endian d file start
                       (((band * nr + tr) * nc + tc) * (tl * ts) + i * ts + j))).
Proof.
  split; [intros host junk; apply import_and_construct_raises|].
  intros PT BO _ host junk self file p0 d Hfmt Hd Hstart Htl Hts tl ts nr nc start Hlen.
  assert (Hreq : required_elements self = bands self * (nr * (nc * (tl * ts))))
    by (unfold required_elements; rewrite decide_True by exact Hfmt; reflexivity).
  destruct (tile_run host PT BO junk self file start d Hfmt Hd Htl Hts)
    as (items & Hrun & Hlen' & Hw); [rewrite Hreq; exact Hlen|].
  rewrite Hreq in Hrun.
  assert (Hempty : ∀ b l s,
            is_Some (get3 (np_empty junk (shape self)) b l s)
            ↔ b < bands self ∧ l < lines self ∧ s < samples self).
  { intros b l s. unfold np_empty, shape. split.
    - intros Hsome.
      destruct (decide (b < bands self ∧ l < lines self ∧ s < samples self)) as [|Hn];
        [assumption|].
      rewrite get3_unflatten3_outside in Hsome by lia. by destruct Hsome.
    - intros (Hb & Hl & Hs). rewrite get3_unflatten3 by assumption.
      apply lookup_lt_is_Some. rewrite length_fmap, length_seq. unfold size_of.
      apply flat_index_bound3; assumption. }
  exists items. split; [|split].
  - rewrite parse_data_tile by assumption. exact Hrun.
  - intros b l s. rewrite <- Hempty. unfold get3.
    destruct (np_empty junk (shape self) !! b) as [plane|] eqn:Hb.
    + destruct (Hw b plane Hb) as (plane' & -> & Hwp).
      eapply writes_is_Some; exact Hwp.
    + apply lookup_ge_None in Hb.
      rewrite (proj2 (lookup_ge_None items b)); [reflexivity|].
      rewrite Hlen'. rewrite <- (length_unflatten3 (bands self) (lines self) (samples self)
                                   (junk <$> seq 0 (size_of (shape self)))).
      exact Hb.
  - intros b tr tc i j Hb Hi Hj Hl Hs.
    assert (Hsome : is_Some (get3 (np_empty junk (shape self)) b (tr * tl + i) (tc * ts + j)))
      by (apply Hempty; auto).
    unfold get3 in *.
    destruct (np_empty junk (shape self) !! b) as [plane|] eqn:Hpl; [|by destruct Hsome].
    destruct (Hw b plane Hpl) as (plane' & -> & Hwp).
    rewrite Hwp. destruct Hsome as [x ->]. cbn [fmap option_fmap option_map].
    pose proof (band_writes_hit (elem_at host d file start) (lines self) (samples self)
                  tl ts nc nr 0
                  (b * (nr * (nc * (tl * ts)))) tr tc i j) as Hhit.
    cbn [Nat.add] in Hhit. fold tl ts nr nc. rewrite Hhit.
    + cbn [default from_option]. unfold id. do 2 f_equal. lia.
    + eapply tile_count_gt; eassumption.
    + eapply tile_count_gt; eassumption.
    + assumption.
    + assumption.
    + assumption.
    + assumption.
Qed.

(** Three by three in tiles of two by two, with the tables bound: four
    full tiles are consumed (the stream ends at byte 18), the corner
    cell is the first element of the fourth tile, and no cell lies
    beyond the third sample. *)
Lemma tile_decode_stops_at_import_witness :
  ∃ PIXEL_TYPES BYTE_ORDERS a st,
    tables_with_np = Ok (PIXEL_TYPES, BYTE_ORDERS)
    ∧ _parse_data false PIXEL_TYPES BYTE_ORDERS (λ _, 0%Z)
        tiled_label {| content := tiled_file; pos := 0 |} = Ok (a, st)
    ∧ pos st = 18
    ∧ get3 (nd_items a) 0 2 2 = Some 13%Z
    ∧ get3 (nd_items a) 0 2 3 = None.
Proof.
  exists pixel_types_with_np, constants.BYTE_ORDERS.
  destruct (proj2 tile_decode_stops_at_import
              pixel_types_with_np constants.BYTE_ORDERS tables_with_np_eq false (λ _, 0%Z)
              tiled_label tiled_file 0
              {| base_type := uint8; order := LittleEndian |}
              eq_refl ltac:(vm_compute; reflexivity)
              ltac:(cbn; lia) ltac:(cbn; lia) ltac:(cbn; lia) ltac:(vm_compute; lia))
    as (items & Hrun & Hshape & Hcell).
  eexists _, _. split; [exact tables_with_np_eq|].
  split; [exact Hrun|]. split; [vm_compute; reflexivity|].
  cbn [nd_items]. split.
  - etransitivity;
      [exact (Hcell 0 1 1 0 0 ltac:(cbn; lia) ltac:(cbn; lia) ltac:(cbn; lia)
                ltac:(cbn; lia) ltac:(cbn; lia))|].
    vm_compute. reflexivity.
  - destruct (get3 items 0 2 3) as [x|] eqn:Hx; [|reflexivity].
    assert (Hsome : is_Some (get3 items 0 2 3)) by (rewrite Hx; eauto).
    apply Hshape in Hsome. cbn in Hsome. lia.
Defined.

(** ** Failures of the constructor *)

Lemma dtype_unknown_order PT BO (self : Label) :
  BO !! ByteOrder self = None → dtype PT BO self = Raise (KeyError (ByteOrder self)).
Proof. intros H. unfold dtype, getitem. rewrite H. reflexivity. Qed.

Lemma dtype_unknown_type PT BO (self : Label) :
  is_Some (BO !! ByteOrder self) → PT !! PixelType self = None →
  dtype PT BO self = Raise (KeyError (PixelType self)).
Proof. intros [o Ho] H. unfold dtype, getitem. rewrite Ho, H. reflexivity. Qed.

Lemma parse_data_dtype_raises host PT BO junk (self : Label) st e :
  (format self = "Tile" → TileLines self ≠ 0 ∧ TileSamples self ≠ 0) →
  dtype PT BO self = Raise e →
  (_parse_band_sequential_data host PT BO self st = Raise e) ∧
  (format self = "Tile" → _parse_tile_data host PT BO junk self st = Raise e).
Proof.
  intros Htile Hd. split.
  - unfold _parse_band_sequential_data. unfold mbind, io_bind. rewrite Hd. reflexivity.
  - intros Hfmt. destruct (Htile Hfmt) as [Htl Hts].
    unfold _parse_tile_data, tile_lines, tile_samples.
    rewrite !decide_False by (intros H; apply H; exact Hfmt).
    cbn [from_option]. unfold mbind, io_bind. cbn [lift].
    rewrite !py_range_ok by assumption. rewrite Hd. reflexivity.
Qed.

Lemma init_of_parse_data host PT BO junk pvl_load file name (self : Label) :
  pvl_load file = Ok self →
  __init__ host PT BO junk pvl_load file name
  = match _parse_data host PT BO junk self {| content := file; pos := 0 |} with
    | Ok (a, _) => Ok {| filename := name; label := self; data := a |}
    | Raise e => Raise e
    end.
Proof.
  intros Hload. unfold __init__. unfold mbind, result_bind. rewrite Hload.
  destruct (_parse_data _ _ _ _ _ _) as [[a st]|e]; reflexivity.
Qed.

Lemma parse_data_bad_start host PT BO junk (self : Label) st :
  (StartByte self < 1)%Z →
  _parse_data host PT BO junk self st = Raise OSError.
Proof.
  intros H. unfold _parse_data. unfold mbind at 1, io_bind at 1. unfold seek.
  destruct (Z.ltb_spec (start_byte self) 0) as [_|Hge]; [reflexivity|].
  unfold start_byte in Hge. lia.
Qed.

Lemma parse_data_zero_tile_side host PT BO junk (self : Label) file p0 :
  format self = "Tile" → (1 ≤ StartByte self)%Z →
  TileLines self = 0 ∨ TileSamples self = 0 →
  _parse_data host PT BO junk self {| content := file; pos := p0 |}
  = Raise (ValueError RangeStepZero).
Proof.
  intros Hfmt Hstart Hzero.
  rewrite parse_data_tile by assumption.
  unfold _parse_tile_data, tile_lines, tile_samples.
  rewrite !decide_False by (intros H; apply H; exact Hfmt).
  cbn [from_option]. unfold mbind, io_bind. cbn [lift].
  destruct (TileLines self) as [|tl] eqn:Etl; [reflexivity|].
  destruct Hzero as [Hz|Hz]; [discriminate Hz|]. rewrite Hz.
  rewrite py_range_ok by lia. cbn [lift]. reflexivity.
Qed.

(** C6, as stated, fails, with the tables bound, in three ways.  A
    start byte of 0 makes [seek] raise [OSError] although the label and
    the file give none of the four causes; a tile height of 0 makes
    [range] raise [ValueError] likewise; and an unknown pixel type and an
    unknown byte order raise the same exception, [KeyError] with the
    unknown name, so no reading of the exceptions tells the two kinds
    apart. *)
Lemma four_error_kinds_fail :
  (construct tables_with_np false (λ _, 0%Z) (λ _, Ok start_zero_label) sequential_file None
   = Raise OSError
   ∧ ∀ k, ¬ cause pixel_types_with_np constants.BYTE_ORDERS
             start_zero_label sequential_file k)
  ∧ (construct tables_with_np false (λ _, 0%Z) (λ _, Ok flat_tile_label) tiled_file None
     = Raise (ValueError RangeStepZero)
     ∧ ∀ k, ¬ cause pixel_types_with_np constants.BYTE_ORDERS
               flat_tile_label tiled_file k)
  ∧ (construct tables_with_np false (λ _, 0%Z) (λ _, Ok unknown_type_label)
       sequential_file None = Raise (KeyError "Complex")
     ∧ construct tables_with_np false (λ _, 0%Z) (λ _, Ok unknown_order_label)
         sequential_file None = Raise (KeyError "Complex")
     ∧ ¬ cause pixel_types_with_np constants.BYTE_ORDERS
           unknown_order_label sequential_file UnsupportedEncoding
     ∧ ¬ cause pixel_types_with_np constants.BYTE_ORDERS
           unknown_type_label sequential_file UnknownByteOrder)
  ∧ ¬ four_error_kinds.
Proof.
  assert (Hnone : ∀ (self : Label) file,
            is_Some (pixel_types_with_np !! PixelType self) →
            is_Some (constants.BYTE_ORDERS !! ByteOrder self) →
            format self = "BandSequential" ∨ format self = "Tile" →
            (∀ d, dtype pixel_types_with_np constants.BYTE_ORDERS self = Ok d →
                  required_elements self ≤ available d file (Z.to_nat (start_byte self))) →
            ∀ k, ¬ cause pixel_types_with_np constants.BYTE_ORDERS self file k).
  { intros self file [pt Hpt] [bo Hbo] Hfmt Hfull [| | |]; cbn [cause].
    - rewrite Hpt. discriminate.
    - rewrite Hbo. discriminate.
    - intros [H1 H2]. destruct Hfmt; contradiction.
    - intros (d & Hd & Hlt). specialize (Hfull d Hd). lia. }
  assert (Hstart : ∀ k, ¬ cause pixel_types_with_np constants.BYTE_ORDERS
                            start_zero_label sequential_file k).
  { apply Hnone.
    - vm_compute. eauto.
    - vm_compute. eauto.
    - left. reflexivity.
    - intros d Hd. vm_compute in Hd. injection Hd as <-. vm_compute. lia. }
  assert (Hflat : ∀ k, ¬ cause pixel_types_with_np constants.BYTE_ORDERS
                           flat_tile_label tiled_file k).
  { apply Hnone.
    - vm_compute. eauto.
    - vm_compute. eauto.
    - right. reflexivity.
    - intros d Hd. vm_compute in Hd. injection Hd as <-. vm_compute. lia. }
  split; [split; [vm_compute; reflexivity|exact Hstart]|].
  split; [split; [vm_compute; reflexivity|exact Hflat]|].
  split.
  { split; [vm_compute; reflexivity|]. split; [vm_compute; reflexivity|].
    split; cbn [cause]; vm_compute; discriminate. }
  intros H.
  destruct (H _ _ tables_with_np_eq) as [kind_of Hk].
  apply (Hstart (kind_of OSError)).
  apply (Hk false (λ _, 0%Z) start_zero_label sequential_file OSError).
  vm_compute. reflexivity.
Qed.

(** The five outcomes of the constructor past [seek] and [range], by the
    first check that fails. *)
Lemma constructor_cases :
  ∀ (host_big_endian : bool)
    (PIXEL_TYPES : gmap string Dtype) (BYTE_ORDERS : gmap string byteorder)
    (junk : nat → Z) (pvl_load : list byte → result Label)
    (file : list byte) (name : option string) (self : Label),
    pvl_load file = Ok self →
    (1 ≤ StartByte self)%Z →
    (format self = "Tile" → TileLines self ≠ 0 ∧ TileSamples self ≠ 0) →
    let run := __init__ host_big_endian PIXEL_TYPES BYTE_ORDERS junk pvl_load file name in
    let known := format self = "BandSequential" ∨ format self = "Tile" in
    let start := Z.to_nat (start_byte self) in
    (¬ known →
     run = Raise (Exception ("Unkown Isis Cube format (" +:+ format self +:+ ")"))) ∧
    (known → BYTE_ORDERS !! ByteOrder self = None →
     run = Raise (KeyError (ByteOrder self))) ∧
    (known → is_Some (BYTE_ORDERS !! ByteOrder self) →
     PIXEL_TYPES !! PixelType self = None →
     run = Raise (KeyError (PixelType self))) ∧
    (∀ d, known → dtype PIXEL_TYPES BYTE_ORDERS self = Ok d →
          available d file start < required_elements self →
          run = Raise (ValueError ReshapeSize)) ∧
    (∀ d, known → dtype PIXEL_TYPES BYTE_ORDERS self = Ok d →
          required_elements self ≤ available d file start →
          ∃ cube, run = Ok cube ∧ label cube = self ∧
                  nd_dtype (data cube) = d ∧ nd_shape (data cube) = shape self).
Proof.
  intros host PT BO junk pvl_load file name self Hload Hstart Htile run known start.
  subst run start. rewrite (init_of_parse_data _ _ _ _ _ _ _ self Hload).
  assert (Hdt : ∀ e, known → dtype PT BO self = Raise e →
            _parse_data host PT BO junk self {| content := file; pos := 0 |} = Raise e).
  { intros e [Hfmt|Hfmt] Hd.
    - rewrite parse_data_band_sequential by assumption.
      apply (parse_data_dtype_raises host PT BO junk self _ e Htile Hd).
    - rewrite parse_data_tile by assumption.
      apply (parse_data_dtype_raises host PT BO junk self _ e Htile Hd). exact Hfmt. }
  split; [|split; [|split; [|split]]].
  - intros Hunknown. unfold _parse_data. unfold mbind at 1, io_bind at 1.
    rewrite seek_ok by (unfold start_byte; lia).
    rewrite !decide_False by (intros H; apply Hunknown; unfold known; auto).
    reflexivity.
  - intros Hk Ho. rewrite (Hdt _ Hk (dtype_unknown_order PT BO self Ho)). reflexivity.
  - intros Hk Ho Ht. rewrite (Hdt _ Hk (dtype_unknown_type PT BO self Ho Ht)). reflexivity.
  - intros d [Hfmt|Hfmt] Hd Hlt.
    + rewrite parse_data_band_sequential by assumption.
      rewrite band_sequential_short with (d := d); [reflexivity|assumption|].
      unfold required_elements in Hlt.
      rewrite decide_False in Hlt by (rewrite Hfmt; discriminate). exact Hlt.
    + destruct (Htile Hfmt) as [Htl Hts].
      rewrite parse_data_tile by assumption.
      rewrite tile_short with (d := d); [reflexivity|assumption..].
  - intros d [Hfmt|Hfmt] Hd Hle.
    + rewrite parse_data_band_sequential by assumption.
      rewrite band_sequential_run with (d := d).
      * eexists. split; [reflexivity|]. repeat split.
      * assumption.
      * unfold required_elements in Hle.
        rewrite decide_False in Hle by (rewrite Hfmt; discriminate). exact Hle.
    + destruct (Htile Hfmt) as [Htl Hts].
      rewrite parse_data_tile by assumption.
      destruct (tile_run host PT BO junk self file _ d Hfmt Hd Htl Hts Hle)
        as (items & -> & _).
      eexists. split; [reflexivity|]. repeat split.
Qed.

Lemma import_and_construct_unfold host junk pvl_load file :
  import_and_construct host junk pvl_load file
  = construct (imported_tables host) host junk pvl_load file None.
Proof.
  unfold import_and_construct, construct, imported_tables.
  unfold mbind, result_bind.
  destruct (cubefile.module_body host ∅) as [[u g]|e]; [|reflexivity].
  destruct (g !! "PIXEL_TYPES") as [[]|]; try reflexivity.
  destruct (g !! "BYTE_ORDERS") as [[]|]; reflexivity.
Qed.

(** C6, amended. A program that imports the reader and constructs a
    cube is the import followed by the constructor on the tables the
    import bound.  The constructor returns no object when it fails: the
    exception of the import, and that of the label parser, propagate
    unchanged; with the tables and the label at hand it fails in exactly
    these cases: a start byte below 1 raises [OSError] at [seek];
    otherwise a format other than [BandSequential] and [Tile] raises
    [Exception] with the message of the source; a tiled label with a
    tile side of 0 raises the [ValueError] of [range]; otherwise a byte
    order missing from [BYTE_ORDERS] raises [KeyError] with that name;
    otherwise a pixel type missing from [PIXEL_TYPES] raises [KeyError]
    with that name; otherwise a file holding fewer elements than the
    decoder asks for raises the [ValueError] of [reshape]; otherwise it
    returns the cube.  So every failure past the import and the label
    is one of these six exceptions. *)
Theorem constructor_failures :
  ∀ (imported : result (gmap string Dtype * gmap string byteorder))
    (host_big_endian : bool) (junk : nat → Z)
    (pvl_load : list byte → result Label)
    (file : list byte) (name : option string),
    let run := construct imported host_big_endian junk pvl_load file name in
    import_and_construct host_big_endian junk pvl_load file
    = construct (imported_tables host_big_endian) host_big_endian junk pvl_load file None
    ∧
    match imported, pvl_load file with
    | Raise e, _ => run = Raise e
    | Ok _, Raise e => run = Raise e
    | Ok (PIXEL_TYPES, BYTE_ORDERS), Ok self =>
        let known := format self = "BandSequential" ∨ format self = "Tile" in
        let flat := format self = "Tile" ∧ (TileLines self = 0 ∨ TileSamples self = 0) in
        let start := Z.to_nat (start_byte self) in
        ((StartByte self < 1)%Z → run = Raise OSError) ∧
        ((1 ≤ StartByte self)%Z → ¬ known →
         run = Raise (Exception ("Unkown Isis Cube format (" +:+ format self +:+ ")"))) ∧
        ((1 ≤ StartByte self)%Z → flat → run = Raise (ValueError RangeStepZero)) ∧
        ((1 ≤ StartByte self)%Z → known → ¬ flat →
         BYTE_ORDERS !! ByteOrder self = None →
         run = Raise (KeyError (ByteOrder self))) ∧
        ((1 ≤ StartByte self)%Z → known → ¬ flat →
         is_Some (BYTE_ORDERS !! ByteOrder self) →
         PIXEL_TYPES !! PixelType self = None →
         run = Raise (KeyError (PixelType self))) ∧
        (∀ d, (1 ≤ StartByte self)%Z → known → ¬ flat →
              dtype PIXEL_TYPES BYTE_ORDERS self = Ok d →
              available d file start < required_elements self →
              run = Raise (ValueError ReshapeSize)) ∧
        (∀ d, (1 ≤ StartByte self)%Z → known → ¬ flat →
              dtype PIXEL_TYPES BYTE_ORDERS self = Ok d →
              required_elements self ≤ available d file start →
              ∃ cube, run = Ok cube ∧ label cube = self ∧
                      nd_dtype (data cube) = d ∧ nd_shape (data cube) = shape self) ∧
        (∀ e, run = Raise e →
              e = OSError
              ∨ e = Exception ("Unkown Isis Cube format (" +:+ format self +:+ ")")
              ∨ e = ValueError RangeStepZero
              ∨ e = KeyError (ByteOrder self)
              ∨ e = KeyError (PixelType self)
              ∨ e = ValueError ReshapeSize)
    end.
Proof.
  intros imported host junk pvl_load file name run.
  split; [apply import_and_construct_unfold|].
  destruct imported as [[PT BO]|e]; [|reflexivity].
  destruct (pvl_load file) as [self|e] eqn:Hload.
  2:{ subst run. unfold construct, __init__. cbn [mbind result_bind].
      rewrite Hload. reflexivity. }
  intros known flat start.
  assert (Hrun : run = __init__ host PT BO junk pvl_load file name) by reflexivity.
  assert (Htile : ¬ flat → format self = "Tile" → TileLines self ≠ 0 ∧ TileSamples self ≠ 0).
  { intros Hnf Hfmt. unfold flat in Hnf. split; intros Hz; apply Hnf; auto. }
  assert (Hbad : (StartByte self < 1)%Z → run = Raise OSError).
  { intros Hlt. rewrite Hrun, (init_of_parse_data _ _ _ _ _ _ _ self Hload).
    rewrite parse_data_bad_start by exact Hlt. reflexivity. }
  assert (Hflat : (1 ≤ StartByte self)%Z → flat → run = Raise (ValueError RangeStepZero)).
  { intros Hge [Hfmt Hz]. rewrite Hrun, (init_of_parse_data _ _ _ _ _ _ _ self Hload).
    rewrite parse_data_zero_tile_side by assumption. reflexivity. }
  assert (Hcases : (1 ≤ StartByte self)%Z → ¬ flat →
            (¬ known →
             run = Raise (Exception ("Unkown Isis Cube format (" +:+ format self +:+ ")"))) ∧
            (known → BO !! ByteOrder self = None →
             run = Raise (KeyError (ByteOrder self))) ∧
            (known → is_Some (BO !! ByteOrder self) →
             PT !! PixelType self = None →
             run = Raise (KeyError (PixelType self))) ∧
            (∀ d, known → dtype PT BO self = Ok d →
                  available d file start < required_elements self →
                  run = Raise (ValueError ReshapeSize)) ∧
            (∀ d, known → dtype PT BO self = Ok d →
                  required_elements self ≤ available d file start →
                  ∃ cube, run = Ok cube ∧ label cube = self ∧
                          nd_dtype (data cube) = d ∧ nd_shape (data cube) = shape self)).
  { intros Hge Hnf. rewrite Hrun.
    exact (constructor_cases host PT BO junk pvl_load file name self Hload Hge (Htile Hnf)). }
  split; [exact Hbad|].
  split.
  { intros Hge Hunknown.
    assert (Hnf : ¬ flat) by (intros [Hfmt _]; apply Hunknown; right; exact Hfmt).
    exact (proj1 (Hcases Hge Hnf) Hunknown). }
  split; [exact Hflat|].
  split; [intros Hge Hk Hnf; exact (proj1 (proj2 (Hcases Hge Hnf)) Hk)|].
  split; [intros Hge Hk Hnf; exact (proj1 (proj2 (proj2 (Hcases Hge Hnf))) Hk)|].
  split; [intros d Hge Hk Hnf; exact (proj1 (proj2 (proj2 (proj2 (Hcases Hge Hnf)))) d Hk)|].
  split; [intros d Hge Hk Hnf; exact (proj2 (proj2 (proj2 (proj2 (Hcases Hge Hnf)))) d Hk)|].
  intros e He.
  destruct (Z.lt_ge_cases (StartByte self) 1) as [Hlt|Hge];
    [rewrite (Hbad Hlt) in He; left; congruence|].
  destruct (decide known) as [Hk|Hk].
  2:{ assert (Hnf : ¬ flat) by (intros [Hfmt _]; apply Hk; right; exact Hfmt).
      rewrite (proj1 (Hcases Hge Hnf) Hk) in He. right; left. congruence. }
  assert (Hdec : flat ∨ ¬ flat).
  { unfold flat. destruct (decide (format self = "Tile")) as [Hfmt|Hfmt]; [|right; tauto].
    destruct (decide (TileLines self = 0)); [left; auto|].
    destruct (decide (TileSamples self = 0)); [left; auto|].
    right. intros [_ [Hz|Hz]]; contradiction. }
  destruct Hdec as [Hf|Hnf];
    [rewrite (Hflat Hge Hf) in He; right; right; left; congruence|].
  destruct (Hcases Hge Hnf) as (_ & Horder & Htype & Hshort & Hok).
  assert (Hcase_o : BO !! ByteOrder self = None ∨ ∃ o, BO !! ByteOrder self = Some o)
    by (destruct (BO !! ByteOrder self); eauto).
  destruct Hcase_o as [Ho|[o Ho]];
    [rewrite (Horder Hk Ho) in He; do 3 right; left; congruence|].
  assert (Hcase_t : PT !! PixelType self = None ∨ ∃ pt, PT !! PixelType self = Some pt)
    by (destruct (PT !! PixelType self); eauto).
  destruct Hcase_t as [Hpt|[pt Hpt]];
    [rewrite (Htype Hk ltac:(rewrite Ho; eauto) Hpt) in He; do 4 right; left; congruence|].
  assert (Hd : dtype PT BO self = Ok (newbyteorder pt o))
    by (unfold dtype, getitem; rewrite Ho, Hpt; reflexivity).
  destruct (le_lt_dec (required_elements self) (available (newbyteorder pt o) file start))
    as [Hle|Hlt].
  - destruct (Hok _ Hk Hd Hle) as (cube & Hcube & _). congruence.
  - rewrite (Hshort _ Hk Hd Hlt) in He. do 5 right. congruence.
Qed.

(** The program as it stands stops at the import; with the tables bound,
    a band-sequential file cut after two and a half of its four elements
    raises the [ValueError] of [reshape]. *)
Lemma constructor_failures_witness :
  import_and_construct false (λ _, 0%Z) (λ _, Ok sequential_label) (take 7 sequential_file)
  = Raise (NameError "np")
  ∧ construct tables_with_np false (λ _, 0%Z) (λ _, Ok sequential_label)
      (take 7 sequential_file) None
    = Raise (ValueError ReshapeSize).
Proof.
  split.
  - pose proof (constructor_failures (imported_tables false) false (λ _, 0%Z)
                  (λ _, Ok sequential_label) (take 7 sequential_file) None) as [Hprog Hrun].
    rewrite Hprog. rewrite imported_tables_raises in Hrun |- *. exact Hrun.
  - pose proof (constructor_failures tables_with_np false (λ _, 0%Z)
                  (λ _, Ok sequential_label) (take 7 sequential_file) None) as [_ Hrun].
    rewrite tables_with_np_eq in Hrun |- *. cbv zeta in Hrun.
    destruct Hrun as (_ & _ & _ & _ & _ & Hshort & _).
    apply (Hshort {| base_type := int16; order := BigEndian |}).
    + cbn. lia.
    + left. reflexivity.
    + intros [Hfmt _]. discriminate Hfmt.
    + vm_compute. reflexivity.
    + vm_compute. lia.
Defined.
